(** * puppeteer-cli: the argument-to-engine mapping of [src/index.js]

    The program is a thin layer between a yargs option bag and the calls of a
    browser-automation engine.  The development below embeds

    - the pure helpers [buildLaunchOptions], [buildNavigationOptions] and
      [buildCookies], together with the string primitives they use;
    - the viewport pattern [/^(?<width>\d+)[xX](?<height>\d+)$/];
    - the two pipelines [print] and [screenshot] and their yargs handlers, as
      computations that issue engine calls one after the other and append
      every call, diagnostic line and standard-output write to a trace.

    The engine and the three URL libraries ([is-url], [url-parse],
    [file-url]) are third-party code: they are parameters of the model,
    the exceptions of the libraries included.  Strings are sequences of
    ASCII characters; writes to the two standard streams do not fail. *)

From Stdlib Require Import String Ascii List ZArith NArith QArith Bool Lia.
From Stdlib Require Import Strings.Byte.
Import ListNotations.

Local Open Scope string_scope.
Local Open Scope Z_scope.


(** ** JavaScript values that cross the boundary *)

Module Js.

(** A JavaScript number.  [Num q] is a double whose value is exactly [q];
    [Nearest n] is the double nearest to the integer [n], used above 2^53
    where integers are no longer all representable. *)
Inductive number :=
| Num (q : Q)
| Nearest (n : N).

Inductive value :=
| Undefined
| Null
| Bool (b : bool)
| Number (n : number)
| Str (s : string).

(** [ToBoolean] on the strings of the option bag. *)
Definition truthy_string (s : string) : bool :=
  match s with
  | EmptyString => false
  | String _ _ => true
  end.

(** [ToBoolean] on an optional string ([None] is [undefined]). *)
Definition truthy_opt (o : option string) : bool :=
  match o with
  | None => false
  | Some s => truthy_string s
  end.

(** [x || fallback] on an optional string. *)
Definition or_else (o : option string) (fallback : string) : string :=
  match o with
  | Some s => if truthy_string s then s else fallback
  | None => fallback
  end.

(** [x || null] on an optional string: the path handed to the engine. *)
Definition or_null (o : option string) : option string :=
  match o with
  | Some s => if truthy_string s then Some s else None
  | None => None
  end.

(** [v == 'auto']: loose equality of an option value with a string
    literal that is not numeric.  A number or a boolean is compared after
    [ToNumber] of the literal, which is NaN, so only the string itself is
    equal. *)
Definition loose_eq_string (v : value) (lit : string) : bool :=
  match v with
  | Str s => String.eqb s lit
  | _ => false
  end.

(** [String.prototype.indexOf] with a one-character needle: the position of
    the first occurrence, or -1. *)
Fixpoint indexOf (s : string) (c : ascii) : Z :=
  match s with
  | EmptyString => -1
  | String a rest =>
      if Ascii.eqb a c then 0
      else let i := indexOf rest c in
           if i =? -1 then -1 else i + 1
  end.

(** [String.prototype.substr(start, length)]; [None] is an omitted length.
    A negative start counts from the end, both arguments are clamped. *)
Definition substr (s : string) (start : Z) (len : option Z) : string :=
  let n := Z.of_nat (String.length s) in
  let st := if start <? 0 then Z.max 0 (n + start) else Z.min start n in
  let l := match len with
           | None => n - st
           | Some l => Z.min (Z.max l 0) (n - st)
           end in
  String.substring (Z.to_nat st) (Z.to_nat l) s.

(** The string iterator used by the spread [[...s]]: one one-character
    string per character. *)
Fixpoint chars (s : string) : list string :=
  match s with
  | EmptyString => []
  | String a rest => String a EmptyString :: chars rest
  end.

Inductive Error :=
| Err (message : string)
| TypeErr (message : string).

End Js.

Import Js.

(** ** The option bag *)

(** What yargs stores under [cookie] for an option declared
    [type: 'string']: nothing when the flag is absent, the string when it is
    given once, an array when it is repeated. *)
Inductive CookieArg :=
| CookieAbsent
| CookieOne (s : string)
| CookieMany (l : list string).

Definition cookie_truthy (c : CookieArg) : bool :=
  match c with
  | CookieAbsent => false
  | CookieOne s => truthy_string s
  | CookieMany _ => true
  end.

(** The strings the user typed after [--cookie]. *)
Definition supplied (c : CookieArg) : list string :=
  match c with
  | CookieAbsent => []
  | CookieOne s => [s]
  | CookieMany l => l
  end.

(** What yargs stores for the positional [url]: the text as typed, or a
    number when the text reads as one. *)
Inductive Positional :=
| PosString (s : string)
| PosNumber (n : Js.number).

Coercion PosString : string >-> Positional.

Record Cookie := mkCookie {
  name : string;
  value : string;
  url : Positional
}.

Record LaunchOptions := { args : list string }.

Record NavigationOptions := {
  nav_timeout : Js.value;
  nav_waitUntil : string
}.

(** ** [buildLaunchOptions], [buildNavigationOptions], [buildCookies] *)

Definition buildLaunchOptions (sandbox : bool) : LaunchOptions :=
  {| args := if negb sandbox
             then ["--no-sandbox"; "--disable-setuid-sandbox"]
             else [] |}.

Definition buildNavigationOptions (timeout : Js.value) (waitUntil : string)
  : NavigationOptions :=
  {| nav_timeout := timeout; nav_waitUntil := waitUntil |}.

Definition colon : ascii := ":"%char.

(** The callback of the [map] in [buildCookies]. *)
Definition cookieOfString (u : Positional) (cookieString : string)
  : Error + Cookie :=
  let delimiterOffset := indexOf cookieString colon in
  if delimiterOffset =? -1
  then inl (Err "cookie must contain : delimiter")
  else
    let name := substr cookieString 0 (Some delimiterOffset) in
    let value := substr cookieString (delimiterOffset + 1) None in
    inr {| name := name; value := value; url := u |}.

(** [Array.prototype.map] with a callback that may throw: elements are
    visited in order and the first exception ends the traversal. *)
Fixpoint mapThrow {A B} (f : A -> Error + B) (l : list A) : Error + list B :=
  match l with
  | [] => inr []
  | x :: rest =>
      match f x with
      | inl e => inl e
      | inr y =>
          match mapThrow f rest with
          | inl e => inl e
          | inr ys => inr (y :: ys)
          end
      end
  end.

(** The spread [[...cookie]]: an array is copied, a string is iterated
    character by character, [undefined] is not iterable. *)
Definition spreadCookie (c : CookieArg) : Error + list string :=
  match c with
  | CookieAbsent => inl (TypeErr "cookie is not iterable")
  | CookieOne s => inr (chars s)
  | CookieMany l => inr l
  end.

(** [buildCookies({ url, cookie })]: [url] is the [url] property of the
    option bag, that is the positional argument as typed. *)
Definition buildCookies (argv_url : Positional) (cookie : CookieArg)
  : Error + list Cookie :=
  match spreadCookie cookie with
  | inl e => inl e
  | inr strings => mapThrow (cookieOfString argv_url) strings
  end.

(** ** The viewport pattern *)

Definition isDigit (c : ascii) : bool :=
  let n := N_of_ascii c in
  (N.leb 48 n && N.leb n 57)%bool.

Fixpoint allDigits (s : string) : bool :=
  match s with
  | EmptyString => true
  | String c rest => (isDigit c && allDigits rest)%bool
  end.

(** The longest prefix of decimal digits, and what follows it. *)
Fixpoint spanDigits (s : string) : string * string :=
  match s with
  | EmptyString => (EmptyString, EmptyString)
  | String c rest =>
      if isDigit c
      then let (d, tl) := spanDigits rest in (String c d, tl)
      else (EmptyString, s)
  end.

Definition isX (c : ascii) : bool :=
  (Ascii.eqb c "x"%char || Ascii.eqb c "X"%char)%bool.

(** [s.match(/^(?<width>\d+)[xX](?<height>\d+)$/)]: the two named groups on
    a match, [None] for [null].  The first [\d+] can only end where the
    digits end, since the next character has to be an [x]. *)
Definition matchViewport (s : string) : option (string * string) :=
  match spanDigits s with
  | (String w0 w, String c (String h0 h)) =>
      if (isX c && allDigits (String h0 h))%bool
      then Some (String w0 w, String h0 h)
      else None
  | _ => None
  end.

Definition digitValue (c : ascii) : N := (N_of_ascii c - 48)%N.

Fixpoint decimal (acc : N) (s : string) : N :=
  match s with
  | EmptyString => acc
  | String c rest => decimal (10 * acc + digitValue c)%N rest
  end.

(** [parseInt] on a string of decimal digits, which is all the pattern lets
    through: the integer itself while it is representable, the nearest
    double beyond. *)
Definition parseInt (digits : string) : Js.number :=
  let n := decimal 0 digits in
  if (n <=? 2 ^ 53)%N then Num (inject_Z (Z.of_N n)) else Nearest n.

Record Viewport := {
  vp_width : Js.number;
  vp_height : Js.number
}.

(** ** Option bags of the two commands *)

Record PrintArgv := {
  p_url : Positional;
  p_output : option string;
  p_sandbox : bool;
  p_timeout : Js.value;
  p_waitUntil : string;
  p_cookie : CookieArg;
  p_emulateMedia : string;
  p_injectJs : string;
  p_scale : Js.value;
  p_background : bool;
  p_marginTop : Js.value;
  p_marginRight : Js.value;
  p_marginBottom : Js.value;
  p_marginLeft : Js.value;
  p_format : Js.value;
  p_landscape : bool;
  p_displayHeaderFooter : bool;
  p_headerTemplate : string;
  p_footerTemplate : string
}.

Record ScreenshotArgv := {
  s_url : Positional;
  s_output : option string;
  s_sandbox : bool;
  s_timeout : Js.value;
  s_waitUntil : string;
  s_cookie : CookieArg;
  s_fullPage : bool;
  s_omitBackground : bool;
  s_viewport : option string
}.

Record Margin := {
  top : Js.value;
  right : Js.value;
  bottom : Js.value;
  left : Js.value
}.

Record PdfOptions := {
  pdf_path : option string;
  pdf_format : Js.value;
  pdf_width : Js.value;
  pdf_height : Js.value;
  pdf_scale : Js.value;
  pdf_landscape : bool;
  pdf_printBackground : bool;
  pdf_margin : Margin;
  pdf_displayHeaderFooter : bool;
  pdf_headerTemplate : string;
  pdf_footerTemplate : string
}.

Record ScreenshotOptions := {
  shot_path : option string;
  shot_fullPage : bool;
  shot_omitBackground : bool
}.

(** ** The page seen by the function evaluated in it *)

Record Element := { textContent : string }.

Record Document := { querySelector : string -> option Element }.

Record InjectionSlots := {
  scriptBefore : string;
  scriptAfter : string
}.

(** The arrow function handed to [page.evaluate] before the injection. *)
Definition readInjectionSlots (document : Document) : InjectionSlots :=
  {| scriptBefore :=
       match querySelector document "script#before" with
       | Some el => textContent el
       | None => ""
       end;
     scriptAfter :=
       match querySelector document "script#after" with
       | Some el => textContent el
       | None => ""
       end |}.

Definition maxHeightExpression : string :=
  "Math.max(document.body.scrollHeight, document.body.offsetHeight, document.documentElement.clientHeight, document.documentElement.scrollHeight, document.documentElement.offsetHeight)".

(** ** Traces *)

Definition Buffer := list byte.

(** How the promise of an engine call settles. *)
Inductive Reply (A : Type) :=
| Resolved (a : A)
| Rejected (e : Error).

Arguments Resolved {A} a.
Arguments Rejected {A} e.

(** Everything the process does that is visible from outside, in the order
    it does it.  An engine call is recorded when it is issued, with the way
    its promise settles. *)
Inductive Event :=
| Launch (o : LaunchOptions) (r : Reply unit)
| NewPage (r : Reply unit)
| SetJavaScriptEnabled (enabled : bool) (r : Reply unit)
| SetViewport (v : Viewport) (r : Reply unit)
| SetCookie (cs : list Cookie) (r : Reply unit)
| Goto (target : string) (o : NavigationOptions) (r : Reply unit)
| Evaluate (expression : string) (r : Reply Js.value)
| EvaluateFunction (r : Reply Document)
| EmulateMedia (media : string) (r : Reply unit)
| Pdf (o : PdfOptions) (r : Reply Buffer)
| Screenshot (o : ScreenshotOptions) (r : Reply Buffer)
| Close (r : Reply unit)
| ConsoleError (line : string) (attached : option Error)
| StdoutWrite (b : Buffer)
| ProcessExit (code : Z).

Definition Trace := list Event.

(** The engine: how each call settles, given everything that happened
    before it. *)
Record Engine := {
  on_launch : Trace -> LaunchOptions -> Reply unit;
  on_newPage : Trace -> Reply unit;
  on_setJavaScriptEnabled : Trace -> bool -> Reply unit;
  on_setViewport : Trace -> Viewport -> Reply unit;
  on_setCookie : Trace -> list Cookie -> Reply unit;
  on_goto : Trace -> string -> NavigationOptions -> Reply unit;
  on_evaluate : Trace -> string -> Reply Js.value;
  on_evaluateFunction : Trace -> Reply Document;
  on_emulateMedia : Trace -> string -> Reply unit;
  on_pdf : Trace -> PdfOptions -> Reply Buffer;
  on_screenshot : Trace -> ScreenshotOptions -> Reply Buffer;
  on_close : Trace -> Reply unit
}.

(** The URL libraries: [isUrl], [parseUrl(s).toString()] and [fileUrl], on
    whatever the option bag holds.  The two conversions may throw. *)
Record UrlLibs := {
  isUrl : Positional -> bool;
  parseUrl_toString : Positional -> Error + string;
  fileUrl : Positional -> Error + string
}.

(** ** Computations

    An [async] function body is a computation over the trace that returns,
    throws, or ends the process.  [process.exit] is not an exception: no
    [catch] sees it. *)

Inductive Outcome (A : Type) :=
| Returned (a : A)
| Thrown (e : Error)
| Exited (code : Z).

Arguments Returned {A} a.
Arguments Thrown {A} e.
Arguments Exited {A} code.

Definition M (A : Type) := Trace -> Outcome A * Trace.

Definition ret {A} (a : A) : M A := fun t => (Returned a, t).

Definition bind {A B} (m : M A) (k : A -> M B) : M B :=
  fun t =>
    match m t with
    | (Returned a, t') => k a t'
    | (Thrown e, t') => (Thrown e, t')
    | (Exited c, t') => (Exited c, t')
    end.

Declare Scope js_scope.
Delimit Scope js_scope with js.
Notation "x <- m ;; k" := (bind m (fun x => k))
  (at level 61, m at next level, right associativity) : js_scope.
Notation "m ;; k" := (bind m (fun _ => k))
  (at level 61, right associativity) : js_scope.
Local Open Scope js_scope.

Definition throw {A} (e : Error) : M A := fun t => (Thrown e, t).

(** A synchronous helper that may throw, called inside the async body. *)
Definition fromThrow {A} (r : Error + A) : M A :=
  match r with
  | inl e => throw e
  | inr a => ret a
  end.

(** [await call(...)]: the call is issued, the body resumes with the value
    when the promise resolves and throws when it rejects. *)
Definition await {A} (ev : Reply A -> Event) (settle : Trace -> Reply A)
  : M A :=
  fun t =>
    let r := settle t in
    match r with
    | Resolved a => (Returned a, (t ++ [ev r])%list)
    | Rejected e => (Thrown e, (t ++ [ev r])%list)
    end.

(** [call(...)] as an expression statement: the call is issued and its
    promise is dropped, so the body goes on whichever way it settles.  What
    the runtime does with a dropped promise that rejects is not part of the
    program. *)
Definition detached {A} (ev : Reply A -> Event) (settle : Trace -> Reply A)
  : M unit :=
  fun t => (Returned tt, (t ++ [ev (settle t)])%list).

Definition consoleError (line : string) (attached : option Error) : M unit :=
  fun t => (Returned tt, (t ++ [ConsoleError line attached])%list).

Definition stdoutWrite (b : Buffer) : M unit :=
  fun t => (Returned tt, (t ++ [StdoutWrite b])%list).

Definition processExit {A} (code : Z) : M A :=
  fun t => (Exited code, (t ++ [ProcessExit code])%list).

(** [if (c) { body }] *)
Definition when (c : bool) (body : M unit) : M unit :=
  if c then body else ret tt.

(** [try { body } catch (err) { handler }] *)
Definition tryCatch {A} (body : M A) (handler : Error -> M A) : M A :=
  fun t =>
    match body t with
    | (Thrown e, t') => handler e t'
    | r => r
    end.

Section Pipeline.

Variable libs : UrlLibs.
Variable eng : Engine.

(** [isUrl(u) ? parseUrl(u).toString() : fileUrl(u)], which throws when
    the conversion it selects does. *)
Definition resolveTarget (u : Positional) : Error + string :=
  if isUrl libs u then parseUrl_toString libs u else fileUrl libs u.

(** The [if (argv.cookie)] block shared by the two commands. *)
Definition applyCookies (argv_url : Positional) (cookie : CookieArg) : M unit :=
  when (cookie_truthy cookie)
    (consoleError "Setting cookies" None ;;
     cookies <- fromThrow (buildCookies argv_url cookie) ;;
     await (SetCookie cookies) (fun t => on_setCookie eng t cookies)).

Definition pdfOptions (argv : PrintArgv) (width height : Js.value)
  : PdfOptions :=
  {| pdf_path := or_null (p_output argv);
     pdf_format := if loose_eq_string (p_format argv) "auto"
                   then Undefined else p_format argv;
     pdf_width := width;
     pdf_height := height;
     pdf_scale := p_scale argv;
     pdf_landscape := p_landscape argv;
     pdf_printBackground := p_background argv;
     pdf_margin := {| top := p_marginTop argv;
                      right := p_marginRight argv;
                      bottom := p_marginBottom argv;
                      left := p_marginLeft argv |};
     pdf_displayHeaderFooter := p_displayHeaderFooter argv;
     pdf_headerTemplate := p_headerTemplate argv;
     pdf_footerTemplate := p_footerTemplate argv |}.

Definition print (argv : PrintArgv) : M unit :=
  let launchOptions := buildLaunchOptions (p_sandbox argv) in
  await (Launch launchOptions) (fun t => on_launch eng t launchOptions) ;;
  await NewPage (on_newPage eng) ;;
  detached (SetJavaScriptEnabled false)
           (fun t => on_setJavaScriptEnabled eng t false) ;;
  url <- fromThrow (resolveTarget (p_url argv)) ;;
  applyCookies (p_url argv) (p_cookie argv) ;;
  consoleError ("Loading " ++ url) None ;;
  let nav := buildNavigationOptions (p_timeout argv) (p_waitUntil argv) in
  await (Goto url nav) (fun t => on_goto eng t url nav) ;;
  consoleError ("Writing " ++ or_else (p_output argv) "STDOUT") None ;;
  size <- (if loose_eq_string (p_format argv) "auto"
           then
             height <- await (Evaluate maxHeightExpression)
                             (fun t => on_evaluate eng t maxHeightExpression) ;;
             ret (height, Str "1366")
           else ret (Undefined, Undefined)) ;;
  let height := fst size in
  let width := snd size in
  when (truthy_string (p_injectJs argv))
    (document <- await EvaluateFunction (on_evaluateFunction eng) ;;
     let slots := readInjectionSlots document in
     let script := scriptBefore slots ++ ";" ++ p_injectJs argv ++ ";"
                   ++ scriptAfter slots in
     await (Evaluate script) (fun t => on_evaluate eng t script) ;;
     ret tt) ;;
  when (truthy_string (p_emulateMedia argv))
    (await (EmulateMedia (p_emulateMedia argv))
           (fun t => on_emulateMedia eng t (p_emulateMedia argv))) ;;
  let options := pdfOptions argv width height in
  buffer <- await (Pdf options) (fun t => on_pdf eng t options) ;;
  when (negb (truthy_opt (p_output argv))) (stdoutWrite buffer) ;;
  consoleError "Done" None ;;
  await Close (on_close eng).

Definition viewportUsage : string :=
  "Option --viewport must be in the format ###x### e.g. 800x600".

(** The [if (argv.viewport)] block of [screenshot]. *)
Definition applyViewport (viewport : option string) : M unit :=
  match viewport with
  | None => ret tt
  | Some v =>
      when (truthy_string v)
        (match matchViewport v with
         | None =>
             consoleError viewportUsage None ;;
             processExit 1
         | Some (width, height) =>
             consoleError ("Setting viewport to " ++ width ++ "x" ++ height)
                          None ;;
             let vp := {| vp_width := parseInt width;
                          vp_height := parseInt height |} in
             await (SetViewport vp) (fun t => on_setViewport eng t vp)
         end)
  end.

Definition screenshotOptions (argv : ScreenshotArgv) : ScreenshotOptions :=
  {| shot_path := or_null (s_output argv);
     shot_fullPage := s_fullPage argv;
     shot_omitBackground := s_omitBackground argv |}.

Definition screenshot (argv : ScreenshotArgv) : M unit :=
  let launchOptions := buildLaunchOptions (s_sandbox argv) in
  await (Launch launchOptions) (fun t => on_launch eng t launchOptions) ;;
  await NewPage (on_newPage eng) ;;
  url <- fromThrow (resolveTarget (s_url argv)) ;;
  applyViewport (s_viewport argv) ;;
  applyCookies (s_url argv) (s_cookie argv) ;;
  consoleError ("Loading " ++ url) None ;;
  let nav := buildNavigationOptions (s_timeout argv) (s_waitUntil argv) in
  await (Goto url nav) (fun t => on_goto eng t url nav) ;;
  consoleError ("Writing " ++ or_else (s_output argv) "STDOUT") None ;;
  let options := screenshotOptions argv in
  buffer <- await (Screenshot options) (fun t => on_screenshot eng t options) ;;
  when (negb (truthy_opt (s_output argv))) (stdoutWrite buffer) ;;
  consoleError "Done" None ;;
  await Close (on_close eng).

Definition printLabel : string := "Failed to generate pdf:".
Definition screenshotLabel : string := "Failed to take screenshot:".

(** The yargs handlers. *)
Definition printHandler (argv : PrintArgv) : M unit :=
  tryCatch (print argv)
    (fun err => consoleError printLabel (Some err) ;; processExit 1).

Definition screenshotHandler (argv : ScreenshotArgv) : M unit :=
  tryCatch (screenshot argv)
    (fun err => consoleError screenshotLabel (Some err) ;; processExit 1).

(** A fresh process: the handler runs on the empty trace. *)
Definition runPrint (argv : PrintArgv) : Outcome unit * Trace :=
  printHandler argv [].

Definition runScreenshot (argv : ScreenshotArgv) : Outcome unit * Trace :=
  screenshotHandler argv [].

End Pipeline.

(** ** A concrete environment for running the model

    Stand-ins for the URL libraries that agree with them on the arguments
    used in the examples.  [is-url] wants a string with a scheme followed by
    two slashes and is false of anything else; [url-parse] returns a URL
    that is already in its normal form (lower-case scheme and host, explicit
    path) as it is, and the examples only pass it such URLs; [file-url]
    resolves a path against the working directory (here [/work]) and
    prefixes the scheme, and throws a [TypeError] when it is handed
    something that is not a string.  The engine resolves every call. *)

Module Sample.

(** Splits at the first occurrence of [sep], when there is one. *)
Fixpoint cut (sep : string) (s : string) : option (string * string) :=
  if String.prefix sep s
  then Some (EmptyString, String.substring (String.length sep)
                            (String.length s - String.length sep) s)
  else match s with
       | EmptyString => None
       | String c rest =>
           match cut sep rest with
           | Some (a, b) => Some (String c a, b)
           | None => None
           end
       end.

Definition hasSchemeAndHost (s : string) : bool :=
  match cut "://" s with
  | Some (String _ _, String _ _) => true
  | _ => false
  end.

Definition serialise (s : string) : string := s.

Definition underWorkingDirectory (path : string) : string :=
  if String.prefix "/" path
  then "file://" ++ path
  else "file:///work/" ++ path.

Definition notAString : Error := TypeErr "Expected a string, got number".

Definition libs : UrlLibs :=
  {| isUrl := fun u =>
       match u with
       | PosString s => hasSchemeAndHost s
       | PosNumber _ => false
       end;
     parseUrl_toString := fun u =>
       match u with
       | PosString s => inr (serialise s)
       | PosNumber _ => inl notAString
       end;
     fileUrl := fun u =>
       match u with
       | PosString s => inr (underWorkingDirectory s)
       | PosNumber _ => inl notAString
       end |}.

Definition emptyDocument : Document :=
  {| querySelector := fun _ => None |}.

(** A page with a [script#before] element and no [script#after]. *)
Definition documentWithBefore : Document :=
  {| querySelector := fun selector =>
       if String.eqb selector "script#before"
       then Some {| textContent := "var a = 1" |}
       else None |}.

Definition rendered : Buffer := [x25; x50; x44; x46]%byte.

Definition engineOn (document : Document) : Engine :=
  {| on_launch := fun _ _ => Resolved tt;
     on_newPage := fun _ => Resolved tt;
     on_setJavaScriptEnabled := fun _ _ => Resolved tt;
     on_setViewport := fun _ _ => Resolved tt;
     on_setCookie := fun _ _ => Resolved tt;
     on_goto := fun _ _ _ => Resolved tt;
     on_evaluate := fun _ expression =>
       if String.eqb expression maxHeightExpression
       then Resolved (Number (Num (inject_Z 2400)))
       else Resolved Undefined;
     on_evaluateFunction := fun _ => Resolved document;
     on_emulateMedia := fun _ _ => Resolved tt;
     on_pdf := fun _ _ => Resolved rendered;
     on_screenshot := fun _ _ => Resolved rendered;
     on_close := fun _ => Resolved tt |}.

Definition engine : Engine := engineOn emptyDocument.

(** The same engine, except that the target goes away right after the page
    is created: the [setJavaScriptEnabled] promise rejects. *)
Definition targetClosed : Error :=
  Err "Protocol error (Emulation.setScriptExecutionDisabled): Target closed.".

Definition engineRejectingScriptSwitch : Engine :=
  {| on_launch := fun _ _ => Resolved tt;
     on_newPage := fun _ => Resolved tt;
     on_setJavaScriptEnabled := fun _ _ => Rejected targetClosed;
     on_setViewport := fun _ _ => Resolved tt;
     on_setCookie := fun _ _ => Resolved tt;
     on_goto := fun _ _ _ => Resolved tt;
     on_evaluate := fun _ _ => Resolved Undefined;
     on_evaluateFunction := fun _ => Resolved emptyDocument;
     on_emulateMedia := fun _ _ => Resolved tt;
     on_pdf := fun _ _ => Resolved rendered;
     on_screenshot := fun _ _ => Resolved rendered;
     on_close := fun _ => Resolved tt |}.

Definition noBrowser : Error := Err "Failed to launch the browser process!".

(** An engine whose launch and page creation settle as given, every other
    call resolving as in [engine]. *)
Definition engineSettling (launched opened : Reply unit) : Engine :=
  {| on_launch := fun _ _ => launched;
     on_newPage := fun _ => opened;
     on_setJavaScriptEnabled := fun _ _ => Resolved tt;
     on_setViewport := fun _ _ => Resolved tt;
     on_setCookie := fun _ _ => Resolved tt;
     on_goto := fun _ _ _ => Resolved tt;
     on_evaluate := fun _ _ => Resolved Undefined;
     on_evaluateFunction := fun _ => Resolved emptyDocument;
     on_emulateMedia := fun _ _ => Resolved tt;
     on_pdf := fun _ _ => Resolved rendered;
     on_screenshot := fun _ _ => Resolved rendered;
     on_close := fun _ => Resolved tt |}.

(** Option bags: the defaults of the yargs builders around the options
    the examples vary. *)
Definition printArgv (u : Positional) (output : option string)
    (cookie : CookieArg) (format : Js.value) (injectJs : string)
  : PrintArgv :=
  {| p_url := u;
     p_output := output;
     p_sandbox := true;
     p_timeout := Number (Num (inject_Z 30000));
     p_waitUntil := "load";
     p_cookie := cookie;
     p_emulateMedia := "";
     p_injectJs := injectJs;
     p_scale := Number (Num (inject_Z 1));
     p_background := true;
     p_marginTop := Str "6.25mm";
     p_marginRight := Str "6.25mm";
     p_marginBottom := Str "14.11mm";
     p_marginLeft := Str "6.25mm";
     p_format := format;
     p_landscape := false;
     p_displayHeaderFooter := false;
     p_headerTemplate := "";
     p_footerTemplate := "" |}.

Definition screenshotArgv (u : Positional) (output : option string)
    (cookie : CookieArg) (viewport : option string)
  : ScreenshotArgv :=
  {| s_url := u;
     s_output := output;
     s_sandbox := true;
     s_timeout := Number (Num (inject_Z 30000));
     s_waitUntil := "load";
     s_cookie := cookie;
     s_fullPage := true;
     s_omitBackground := false;
     s_viewport := viewport |}.

End Sample.

(** * Vocabulary of the properties *)

(** ** Strings and cookies *)

(** The split the cookie syntax asks for, by recursion on the string: the
    text before the first [c] and the whole text after it. *)
Fixpoint splitFirst (c : ascii) (s : string) : option (string * string) :=
  match s with
  | EmptyString => None
  | String a rest =>
      if Ascii.eqb a c then Some (EmptyString, rest)
      else match splitFirst c rest with
           | Some (n, v) => Some (String a n, v)
           | None => None
           end
  end.

Fixpoint occurs (c : ascii) (s : string) : Prop :=
  match s with
  | EmptyString => False
  | String a rest => a = c \/ occurs c rest
  end.

Definition delimiterError : Error := Err "cookie must contain : delimiter".

(** ** Predicates on events and traces *)

(** [emits P m]: whatever the trace [m] starts on, it only appends to it,
    and only events that satisfy [P]. *)
Definition emits {A} (P : Event -> Prop) (m : M A) : Prop :=
  forall t, exists ext, snd (m t) = (t ++ ext)%list /\ Forall P ext.

Definition isGoto (e : Event) : Prop :=
  match e with Goto _ _ _ => True | _ => False end.

Definition isSetCookie (e : Event) : Prop :=
  match e with SetCookie _ _ => True | _ => False end.

Definition isSetViewport (e : Event) : Prop :=
  match e with SetViewport _ _ => True | _ => False end.

Definition isSetJavaScriptEnabled (e : Event) : Prop :=
  match e with SetJavaScriptEnabled _ _ => True | _ => False end.

(** Every cookie handed to the engine carries [u] in its [url] field. *)
Definition cookiesTagged (u : Positional) (e : Event) : Prop :=
  match e with
  | SetCookie cs _ => Forall (fun k => url k = u) cs
  | _ => True
  end.

(** Every navigation goes to [u]. *)
Definition navigatesTo (u : string) (e : Event) : Prop :=
  match e with
  | Goto target _ _ => target = u
  | _ => True
  end.

(** [precedes P Q t]: in [t] no event satisfying [Q] occurs before the first
    event satisfying [P]. *)
Inductive precedes (P Q : Event -> Prop) : Trace -> Prop :=
| precedes_nil : precedes P Q []
| precedes_hit e t : P e -> precedes P Q (e :: t)
| precedes_skip e t : ~ Q e -> precedes P Q t -> precedes P Q (e :: t).

(** ** What the claims say of a run *)

(** The run ends with status 1, the engine was never asked to navigate nor
    handed any cookie, and once the cookie block was entered the error
    reported under [label] is the missing delimiter. *)
Definition abortsOnCookie (label : string) (r : Outcome unit * Trace) : Prop :=
  fst r = Exited 1
  /\ Forall (fun e => ~ isGoto e) (snd r)
  /\ Forall (fun e => ~ isSetCookie e) (snd r)
  /\ (In (ConsoleError "Setting cookies" None) (snd r) ->
      In (ConsoleError label (Some delimiterError)) (snd r)).

Definition viewportOf (w h : string) : Viewport :=
  {| vp_width := parseInt w; vp_height := parseInt h |}.

(** The engine lets the browser start and the page open. *)
Definition pageOpens (eng : Engine) (sandbox : bool) : Prop :=
  on_launch eng [] (buildLaunchOptions sandbox) = Resolved tt
  /\ on_newPage eng [Launch (buildLaunchOptions sandbox) (Resolved tt)]
     = Resolved tt.

(** The viewport parsed from the groups [w] and [h] is applied: no
    navigation is attempted before [setViewport] has been called with it;
    and when the engine opens the page and the target address resolves,
    the run logs the viewport and calls [setViewport] with it right after
    the page creation. *)
Definition viewportApplied (eng : Engine) (sandbox : bool) (resolved : Prop)
    (w h : string) (r : Outcome unit * Trace) : Prop :=
  precedes (fun e => exists rp, e = SetViewport (viewportOf w h) rp) isGoto
           (snd r)
  /\ (pageOpens eng sandbox -> resolved ->
      exists rp rest,
        snd r = Launch (buildLaunchOptions sandbox) (Resolved tt)
                :: NewPage (Resolved tt)
                :: ConsoleError ("Setting viewport to " ++ w ++ "x" ++ h) None
                :: SetViewport (viewportOf w h) rp
                :: rest).

(** The run ends with status 1 without navigation and without a viewport
    change; and when the engine opens the page and the target address
    resolves, all the run does after the page creation is to write the
    usage message and exit. *)
Definition viewportRejected (eng : Engine) (sandbox : bool) (resolved : Prop)
    (r : Outcome unit * Trace) : Prop :=
  fst r = Exited 1
  /\ Forall (fun e => ~ isGoto e) (snd r)
  /\ Forall (fun e => ~ isSetViewport e) (snd r)
  /\ (pageOpens eng sandbox -> resolved ->
      snd r = [ Launch (buildLaunchOptions sandbox) (Resolved tt);
                NewPage (Resolved tt);
                ConsoleError viewportUsage None;
                ProcessExit 1 ]).

Definition viewportHandled (eng : Engine) (sandbox : bool) (resolved : Prop)
    (v : string) (r : Outcome unit * Trace) : Prop :=
  match matchViewport v with
  | Some (w, h) => viewportApplied eng sandbox resolved w h r
  | None => viewportRejected eng sandbox resolved r
  end.

(** The target address of the run resolves. *)
Definition resolves (libs : UrlLibs) (u : Positional) : Prop :=
  exists target, resolveTarget libs u = inr target.

(** How a print run whose page the engine opens goes on: the call that
    switches script execution off comes right after the page creation,
    hence before everything else, and it is the only one. *)
Definition disablesJavaScriptFirst (sandbox : bool) (t : Trace) : Prop :=
  exists r rest,
    t = Launch (buildLaunchOptions sandbox) (Resolved tt)
        :: NewPage (Resolved tt)
        :: SetJavaScriptEnabled false r
        :: rest
    /\ Forall (fun e => ~ isSetJavaScriptEnabled e) rest.


(** The address a run that got to load was given. *)
Definition loadedAddress (resolution : Error + string) : string :=
  match resolution with
  | inr target => target
  | inl _ => ""
  end.

(** The run ends with status 1 and never navigates. *)
Definition neverNavigates (r : Outcome unit * Trace) : Prop :=
  fst r = Exited 1 /\ Forall (fun e => ~ isGoto e) (snd r).



(** The engine saves what it renders at [path] when the render call is given
    one: the files a run creates are those of its resolved render calls. *)
Definition savedFiles (t : Trace) : list (string * Buffer) :=
  flat_map (fun e =>
              match e with
              | Pdf o (Resolved b) =>
                  match pdf_path o with Some p => [(p, b)] | None => [] end
              | Screenshot o (Resolved b) =>
                  match shot_path o with Some p => [(p, b)] | None => [] end
              | _ => []
              end) t.

Definition stdoutWrites (t : Trace) : list Buffer :=
  flat_map (fun e => match e with StdoutWrite b => [b] | _ => [] end) t.

Definition renderedBuffers (t : Trace) : list Buffer :=
  flat_map (fun e =>
              match e with
              | Pdf _ (Resolved b) => [b]
              | Screenshot _ (Resolved b) => [b]
              | _ => []
              end) t.

(** One buffer was rendered; with a path it went to that file and nothing
    to standard output, without a path it went to standard output and no
    file was created. *)
Definition sinks (path : option string) (t : Trace) : Prop :=
  exists b, renderedBuffers t = [b]
            /\ match path with
               | Some p => savedFiles t = [(p, b)] /\ stdoutWrites t = []
               | None => savedFiles t = [] /\ stdoutWrites t = [b]
               end.

(** What C4 says of a run: a successful one has used the sink [path]
    selects, and no run has used both. *)
Definition sinkFor (path : option string) (r : Outcome unit * Trace) : Prop :=
  (fst r = Returned tt -> sinks path (snd r))
  /\ (savedFiles (snd r) = [] \/ stdoutWrites (snd r) = []).

(** The error of a rejected call whose promise the pipeline awaits. *)
Definition awaitedRejection (e : Event) : option Error :=
  match e with
  | Launch _ (Rejected x) => Some x
  | NewPage (Rejected x) => Some x
  | SetViewport _ (Rejected x) => Some x
  | SetCookie _ (Rejected x) => Some x
  | Goto _ _ (Rejected x) => Some x
  | Evaluate _ (Rejected x) => Some x
  | EvaluateFunction (Rejected x) => Some x
  | EmulateMedia _ (Rejected x) => Some x
  | Pdf _ (Rejected x) => Some x
  | Screenshot _ (Rejected x) => Some x
  | Close (Rejected x) => Some x
  | _ => None
  end.

(** After the first awaited call that rejects, the trace holds the report of
    that error under [label] and the exit with status 1, and nothing
    else. *)
Fixpoint reported (label : string) (t : Trace) : Prop :=
  match t with
  | [] => True
  | e :: rest =>
      match awaitedRejection e with
      | Some err => rest = [ConsoleError label (Some err); ProcessExit 1]
      | None => reported label rest
      end
  end.

(** No exception escapes the handler, every exit has status 1, and a run
    that returns has seen no awaited call reject. *)
Definition failurePolicy (label : string) (r : Outcome unit * Trace) : Prop :=
  reported label (snd r)
  /\ match fst r with
     | Returned _ => Forall (fun e => awaitedRejection e = None) (snd r)
     | Thrown _ => False
     | Exited code => code = 1
     end.





(** ** Further vocabulary: calls, counts and streams *)

Fixpoint allColons (s : string) : bool :=
  match s with
  | EmptyString => true
  | String a rest => (Ascii.eqb a colon && allColons rest)%bool
  end.

(** The cookie a lone delimiter stands for. *)
Definition emptyCookie (u : Positional) : Cookie :=
  {| name := ""; value := ""; url := u |}.

(** The kind of an event, whatever its arguments and outcome. *)
Inductive Kind :=
| KLaunch | KNewPage | KSetJavaScriptEnabled | KSetViewport | KSetCookie
| KGoto | KEvaluate | KEvaluateFunction | KEmulateMedia | KPdf | KScreenshot
| KClose | KConsoleError | KStdoutWrite | KProcessExit.

Definition kindOf (e : Event) : Kind :=
  match e with
  | Launch _ _ => KLaunch
  | NewPage _ => KNewPage
  | SetJavaScriptEnabled _ _ => KSetJavaScriptEnabled
  | SetViewport _ _ => KSetViewport
  | SetCookie _ _ => KSetCookie
  | Goto _ _ _ => KGoto
  | Evaluate _ _ => KEvaluate
  | EvaluateFunction _ => KEvaluateFunction
  | EmulateMedia _ _ => KEmulateMedia
  | Pdf _ _ => KPdf
  | Screenshot _ _ => KScreenshot
  | Close _ => KClose
  | ConsoleError _ _ => KConsoleError
  | StdoutWrite _ => KStdoutWrite
  | ProcessExit _ => KProcessExit
  end.

Definition Kind_eqb (a b : Kind) : bool :=
  match a, b with
  | KLaunch, KLaunch => true
  | KNewPage, KNewPage => true
  | KSetJavaScriptEnabled, KSetJavaScriptEnabled => true
  | KSetViewport, KSetViewport => true
  | KSetCookie, KSetCookie => true
  | KGoto, KGoto => true
  | KEvaluate, KEvaluate => true
  | KEvaluateFunction, KEvaluateFunction => true
  | KEmulateMedia, KEmulateMedia => true
  | KPdf, KPdf => true
  | KScreenshot, KScreenshot => true
  | KClose, KClose => true
  | KConsoleError, KConsoleError => true
  | KStdoutWrite, KStdoutWrite => true
  | KProcessExit, KProcessExit => true
  | _, _ => false
  end.

(** How many events of kind [k] the trace holds. *)
Definition occurrences (k : Kind) (t : Trace) : nat :=
  List.length (filter (fun e => Kind_eqb (kindOf e) k) t).

(** The most events of each kind a print run can produce. *)
Definition printBound (k : Kind) : nat :=
  match k with
  | KSetViewport => 0
  | KScreenshot => 0
  | KEvaluate => 2
  | KConsoleError => 5
  | _ => 1
  end.

(** The most events of each kind a screenshot run can produce. *)
Definition screenshotBound (k : Kind) : nat :=
  match k with
  | KSetJavaScriptEnabled => 0
  | KEvaluate => 0
  | KEvaluateFunction => 0
  | KEmulateMedia => 0
  | KPdf => 0
  | KConsoleError => 6
  | _ => 1
  end.

Definition withinBounds (bound : Kind -> nat) (t : Trace) : Prop :=
  forall k, (occurrences k t <= bound k)%nat.

(** The run starts by launching the browser, with the two no-sandbox flags
    exactly when [sandbox] is false, and launches nothing after that. *)
Definition launchesFirst (sandbox : bool) (t : Trace) : Prop :=
  exists r rest,
    t = Launch {| args := if sandbox then []
                          else ["--no-sandbox"; "--disable-setuid-sandbox"] |}
               r :: rest
    /\ occurrences KLaunch rest = 0%nat.

(** Every navigation is asked with this timeout and readiness condition. *)
Definition navigatesWith (timeout : Js.value) (waitUntil : string)
    (e : Event) : Prop :=
  match e with
  | Goto _ o _ => nav_timeout o = timeout /\ nav_waitUntil o = waitUntil
  | _ => True
  end.



(** How the calls to [browser.close()] settled, in order. *)
Definition closeRequests (t : Trace) : list (Reply unit) :=
  flat_map (fun e => match e with Close r => [r] | _ => [] end) t.

(** The browser is closed in the runs that return; a run that exits either
    never asked for the close or saw the close itself reject. *)
Definition closesOnSuccess (r : Outcome unit * Trace) : Prop :=
  match fst r with
  | Returned _ => closeRequests (snd r) = [Resolved tt]
  | Thrown _ => False
  | Exited _ =>
      closeRequests (snd r) = []
      \/ exists e, closeRequests (snd r) = [Rejected e]
  end.

(** Standard output holds nothing, or the one rendered buffer of a render
    call that was given no path. *)
Definition stdoutIsRendered (t : Trace) : Prop :=
  stdoutWrites t = []
  \/ exists b, stdoutWrites t = [b] /\ renderedBuffers t = [b]
               /\ savedFiles t = [].

(** What the cookie block does with a [cookie] option whose parsing does
    not throw: nothing at all when the option is falsy, and otherwise one
    [setCookie] call with all the records, ahead of any navigation. *)
Definition cookieStep (cookie : CookieArg) (cookies : list Cookie)
    (t : Trace) : Prop :=
  if cookie_truthy cookie
  then precedes (fun e => exists r, e = SetCookie cookies r) isGoto t
       /\ Forall (fun e => match e with
                           | SetCookie cs _ => cs = cookies
                           | _ => True
                           end) t
  else occurrences KSetCookie t = 0%nat
       /\ ~ In (ConsoleError "Setting cookies" None) t.

Definition isEmulateMedia (e : Event) : Prop :=
  match e with EmulateMedia _ _ => True | _ => False end.

Definition isPdf (e : Event) : Prop :=
  match e with Pdf _ _ => True | _ => False end.

Definition isEvaluateFunction (e : Event) : Prop :=
  match e with EvaluateFunction _ => True | _ => False end.

(** What [print] does with [--emulate-media]: nothing when it is empty; and
    otherwise the media type is the one asked for, it is emulated only
    after a successful navigation, and nothing is rendered before it. *)
Definition mediaStep (media : string) (t : Trace) : Prop :=
  if truthy_string media
  then Forall (fun e => match e with
                        | EmulateMedia m _ => m = media
                        | _ => True
                        end) t
       /\ precedes (fun e => exists u o, e = Goto u o (Resolved tt))
                   isEmulateMedia t
       /\ precedes (fun e => exists r, e = EmulateMedia media r) isPdf t
  else occurrences KEmulateMedia t = 0%nat.

(** The lines written to the diagnostic stream, with what is attached. *)
Definition stderrLines (t : Trace) : list (string * option Error) :=
  flat_map (fun e => match e with
                     | ConsoleError line attached => [(line, attached)]
                     | _ => []
                     end) t.

Definition diagnosticsIfDone (expected : list (string * option Error))
    (r : Outcome unit * Trace) : Prop :=
  fst r = Returned tt -> stderrLines (snd r) = expected.

(** The line the viewport block writes, if any. *)
Definition viewportLine (viewport : option string)
  : list (string * option Error) :=
  match viewport with
  | Some v =>
      if truthy_string v
      then match matchViewport v with
           | Some (w, h) => [("Setting viewport to " ++ w ++ "x" ++ h, None)]
           | None => []
           end
      else []
  | None => []
  end.

Definition cookieLine (cookie : CookieArg) : list (string * option Error) :=
  if cookie_truthy cookie then [("Setting cookies", None)] else [].

(** The options of a render call of [print], the page size apart. *)
Definition pdfPassesThrough (argv : PrintArgv) (e : Event) : Prop :=
  match e with
  | Pdf o _ =>
      pdf_path o = or_null (p_output argv)
      /\ pdf_scale o = p_scale argv
      /\ pdf_landscape o = p_landscape argv
      /\ pdf_printBackground o = p_background argv
      /\ top (pdf_margin o) = p_marginTop argv
      /\ right (pdf_margin o) = p_marginRight argv
      /\ bottom (pdf_margin o) = p_marginBottom argv
      /\ left (pdf_margin o) = p_marginLeft argv
      /\ pdf_displayHeaderFooter o = p_displayHeaderFooter argv
      /\ pdf_headerTemplate o = p_headerTemplate argv
      /\ pdf_footerTemplate o = p_footerTemplate argv
  | _ => True
  end.

Definition shotPassesThrough (argv : ScreenshotArgv) (e : Event) : Prop :=
  match e with
  | Screenshot o _ =>
      shot_path o = or_null (s_output argv)
      /\ shot_fullPage o = s_fullPage argv
      /\ shot_omitBackground o = s_omitBackground argv
  | _ => True
  end.

(** Nothing of the viewport block shows in the trace. *)
Definition viewportUntouched (r : Outcome unit * Trace) : Prop :=
  occurrences KSetViewport (snd r) = 0%nat
  /\ ~ In (ConsoleError viewportUsage None) (snd r).

(** No page function is evaluated, and no expression but the measuring
    one. *)
Definition nothingInjected (t : Trace) : Prop :=
  occurrences KEvaluateFunction t = 0%nat
  /\ Forall (fun e => match e with
                      | Evaluate x _ => x = maxHeightExpression
                      | _ => True
                      end) t.

Definition isRender (e : Event) : Prop :=
  match e with
  | Pdf _ _ => True
  | Screenshot _ _ => True
  | _ => False
  end.

(** Nothing is rendered before a navigation has succeeded. *)
Definition rendersAfterNavigation (t : Trace) : Prop :=
  precedes (fun e => exists u o, e = Goto u o (Resolved tt)) isRender t.



(** * Properties *)

(** ** Strings: the first-delimiter split *)

Lemma indexOf_lower_bound (s : string) (c : ascii) : -1 <= indexOf s c.
Proof.
  induction s as [|a s IH]; simpl; [lia|].
  destruct (Ascii.eqb a c); [lia|].
  destruct (indexOf s c =? -1); lia.
Qed.

Lemma indexOf_absent (s : string) (c : ascii) :
  indexOf s c = -1 <-> ~ occurs c s.
Proof.
  induction s as [|a s IH]; simpl.
  - split; [intros _ []|reflexivity].
  - destruct (Ascii.eqb_spec a c) as [->|Hne].
    + split; [lia|intros H; exfalso; apply H; now left].
    + pose proof (indexOf_lower_bound s c) as Hlb.
      destruct (Z.eqb_spec (indexOf s c) (-1)) as [E|E].
      * split; [|reflexivity].
        intros _ [H|H]; [congruence|]. now apply IH in H.
      * split; [lia|].
        intros H. exfalso. apply E, IH. intros Hin. apply H. now right.
Qed.

Lemma splitFirst_none (c : ascii) (s : string) :
  splitFirst c s = None <-> indexOf s c = -1.
Proof.
  induction s as [|a s IH]; simpl; [tauto|].
  destruct (Ascii.eqb a c); [split; [discriminate|lia]|].
  pose proof (indexOf_lower_bound s c) as Hlb.
  destruct (splitFirst c s) as [[n v]|].
  - split; [discriminate|].
    destruct (Z.eqb_spec (indexOf s c) (-1)) as [E|E]; [|lia].
    intros _. destruct IH as [_ IH]. discriminate (IH E).
  - destruct IH as [IH _]. rewrite (IH eq_refl). simpl. tauto.
Qed.

(** [splitFirst] finds the decomposition [s = n ++ c :: v] in which [n] has
    no [c]: there is only one. *)
Lemma splitFirst_some (c : ascii) (s n v : string) :
  splitFirst c s = Some (n, v) <-> s = n ++ String c v /\ ~ occurs c n.
Proof.
  revert n v. induction s as [|a s IH]; intros n v; simpl.
  - split; [discriminate|]. intros [H _]. destruct n; discriminate.
  - destruct (Ascii.eqb_spec a c) as [->|Hne].
    + split.
      * intros [= <- <-]. simpl. tauto.
      * intros [H Hn]. destruct n as [|b n]; simpl in *.
        -- now injection H as ->.
        -- injection H as -> _. exfalso. apply Hn. now left.
    + split.
      * destruct (splitFirst c s) as [[n' v']|] eqn:E; [|discriminate].
        intros [= <- <-]. destruct (IH n' v') as [IH1 _].
        destruct (IH1 eq_refl) as [-> Hn]. simpl. split; [reflexivity|].
        intros [H|H]; [congruence|tauto].
      * intros [H Hn]. destruct n as [|b n]; simpl in *.
        -- injection H as H _. congruence.
        -- injection H as <- H.
           assert (E : splitFirst c s = Some (n, v)).
           { apply IH. split; [assumption|]. intros Hin. apply Hn. now right. }
           now rewrite E.
Qed.

Lemma substring_prefix (n r : string) :
  String.substring 0 (String.length n) (n ++ r) = n.
Proof.
  induction n as [|a n IH]; simpl.
  - now destruct r.
  - now rewrite IH.
Qed.

Lemma substring_whole (s : string) :
  String.substring 0 (String.length s) s = s.
Proof.
  induction s as [|a s IH]; simpl; [reflexivity|now rewrite IH].
Qed.

Lemma substring_suffix (n r : string) :
  String.substring (String.length n) (String.length r) (n ++ r) = r.
Proof.
  induction n as [|a n IH]; simpl; [apply substring_whole|exact IH].
Qed.

Lemma length_append (a b : string) :
  String.length (a ++ b) = (String.length a + String.length b)%nat.
Proof.
  induction a as [|x a IH]; simpl; [reflexivity|now rewrite IH].
Qed.

Lemma indexOf_split (c : ascii) (n v : string) :
  ~ occurs c n -> indexOf (n ++ String c v) c = Z.of_nat (String.length n).
Proof.
  induction n as [|a n IH]; simpl; intros Hn.
  - now rewrite Ascii.eqb_refl.
  - destruct (Ascii.eqb_spec a c) as [->|Hne]; [exfalso; apply Hn; now left|].
    rewrite IH by tauto.
    destruct (Z.eqb_spec (Z.of_nat (String.length n)) (-1)); lia.
Qed.

(** The two [substr] calls of [buildCookies] cut out exactly the two halves
    of the first-delimiter split. *)
Lemma substr_name (c : ascii) (n v : string) :
  substr (n ++ String c v) 0 (Some (Z.of_nat (String.length n))) = n.
Proof.
  unfold substr. rewrite length_append. simpl String.length.
  replace (0 <? 0) with false by reflexivity.
  rewrite Z.min_l by lia. simpl Z.to_nat.
  rewrite Z.max_l by lia. rewrite Z.min_l by lia.
  rewrite Nat2Z.id. apply substring_prefix.
Qed.

Lemma substr_value (c : ascii) (n v : string) :
  substr (n ++ String c v) (Z.of_nat (String.length n) + 1) None = v.
Proof.
  unfold substr. rewrite length_append. simpl String.length.
  destruct (Z.ltb_spec (Z.of_nat (String.length n) + 1) 0) as [H|_]; [lia|].
  rewrite Z.min_l by lia.
  replace (Z.to_nat (Z.of_nat (String.length n) + 1))
    with (String.length (n ++ String c EmptyString))
    by (rewrite length_append; simpl; lia).
  replace (Z.to_nat _) with (String.length v) by lia.
  replace (n ++ String c v) with ((n ++ String c EmptyString) ++ v).
  - apply substring_suffix.
  - clear. induction n as [|a n IH]; simpl; [reflexivity|now rewrite IH].
Qed.

Lemma cookieOfString_split (u : Positional) (s : string) :
  cookieOfString u s =
  match splitFirst colon s with
  | Some (n, v) => inr {| name := n; value := v; url := u |}
  | None => inl (Err "cookie must contain : delimiter")
  end.
Proof.
  unfold cookieOfString.
  destruct (splitFirst colon s) as [[n v]|] eqn:E.
  - apply splitFirst_some in E as [-> Hn].
    rewrite (indexOf_split colon n v Hn).
    destruct (Z.eqb_spec (Z.of_nat (String.length n)) (-1)) as [H|_]; [lia|].
    now rewrite substr_name, substr_value.
  - apply splitFirst_none in E. now rewrite E.
Qed.

(** ** Cookies *)

Lemma mapThrow_Forall2 {A B} (f : A -> Error + B) (l : list A) (ys : list B) :
  mapThrow f l = inr ys -> Forall2 (fun x y => f x = inr y) l ys.
Proof.
  revert ys. induction l as [|x l IH]; simpl; intros ys.
  - intros [= <-]. constructor.
  - destruct (f x) as [e|y] eqn:E; [discriminate|].
    destruct (mapThrow f l) as [e|ys']; [discriminate|].
    intros [= <-]. constructor; auto.
Qed.

Lemma mapThrow_total {A B} (f : A -> Error + B) (l : list A) :
  Forall (fun x => exists y, f x = inr y) l -> exists ys, mapThrow f l = inr ys.
Proof.
  induction 1 as [|x l [y Hy] _ [ys IH]]; simpl.
  - now exists [].
  - rewrite Hy, IH. now exists (y :: ys).
Qed.

(** When every failure of the callback is the same exception, one failing
    element makes the whole [map] throw it. *)
Lemma mapThrow_throws {A B} (f : A -> Error + B) (e : Error) (l : list A) :
  (forall x e', f x = inl e' -> e' = e) ->
  (exists x, In x l /\ f x = inl e) ->
  mapThrow f l = inl e.
Proof.
  intros Hsame. induction l as [|x l IH]; simpl; intros [z [Hin Hz]]; [easy|].
  destruct (f x) as [e'|y] eqn:E.
  - now rewrite (Hsame _ _ E).
  - rewrite IH; [reflexivity|].
    destruct Hin as [->|Hin]; [congruence|eauto].
Qed.

Lemma cookieOfString_error (u : Positional) (s : string) (e : Error) :
  cookieOfString u s = inl e -> e = delimiterError.
Proof.
  rewrite cookieOfString_split.
  destruct (splitFirst colon s) as [[n v]|]; [discriminate|now intros [= <-]].
Qed.

Lemma cookieOfString_url (u : Positional) (s : string) (c : Cookie) :
  cookieOfString u s = inr c -> url c = u.
Proof.
  rewrite cookieOfString_split.
  destruct (splitFirst colon s) as [[n v]|]; [|discriminate]. now intros [= <-].
Qed.

(** Every record [buildCookies] returns carries the [url] it was given. *)
Lemma buildCookies_url (u : Positional) (c : CookieArg)
    (cs : list Cookie) :
  buildCookies u c = inr cs -> Forall (fun k => url k = u) cs.
Proof.
  unfold buildCookies. destruct (spreadCookie c) as [e|l]; [discriminate|].
  intros H. apply mapThrow_Forall2 in H.
  induction H as [|s k l cs Hk _ IH]; constructor; [|exact IH].
  exact (cookieOfString_url _ _ _ Hk).
Qed.

(** A repeated [--cookie]: one record per string, split at the first
    delimiter. *)
Lemma buildCookies_array (u : Positional) (l : list string) :
  Forall (occurs colon) l ->
  exists cs,
    buildCookies u (CookieMany l) = inr cs /\
    Forall2 (fun s k => s = name k ++ String colon (value k) /\
                        ~ occurs colon (name k) /\ url k = u) l cs.
Proof.
  intros Hall. unfold buildCookies; simpl.
  destruct (mapThrow_total (cookieOfString u) l) as [cs Hcs].
  - induction Hall as [|s l Hs _ IH]; constructor; [|exact IH].
    rewrite cookieOfString_split.
    destruct (splitFirst colon s) as [[n v]|] eqn:E; [eauto|].
    apply splitFirst_none, indexOf_absent in E. contradiction.
  - exists cs. split; [exact Hcs|].
    apply mapThrow_Forall2 in Hcs.
    induction Hcs as [|s k l' cs' Hk _ IH]; constructor.
    + rewrite cookieOfString_split in Hk.
      destruct (splitFirst colon s) as [[n v]|] eqn:E; [|discriminate].
      injection Hk as <-. simpl. apply splitFirst_some in E. tauto.
    + apply IH. now inversion Hall.
Qed.

(** A [--cookie] given once: the string is iterated character by character,
    so a cookie with a non-empty name makes [buildCookies] throw. *)
Lemma buildCookies_single (u : Positional) (a : ascii) (rest : string) :
  a <> colon -> buildCookies u (CookieOne (String a rest)) = inl delimiterError.
Proof.
  intros Ha. unfold buildCookies; simpl.
  unfold cookieOfString; simpl.
  destruct (Ascii.eqb_spec a colon) as [|_]; [contradiction|reflexivity].
Qed.

(** A truthy [cookie] with a string that has no delimiter: [buildCookies]
    throws, whichever shape yargs gave it. *)
Lemma buildCookies_missing_delimiter (u : Positional) (c : CookieArg) :
  cookie_truthy c = true ->
  (exists s, In s (supplied c) /\ indexOf s colon = -1) ->
  buildCookies u c = inl delimiterError.
Proof.
  intros Ht [s [Hin Hs]]. destruct c as [|s1|l]; simpl in *.
  - discriminate.
  - destruct Hin as [<-|[]]. destruct s1 as [|a rest]; [discriminate|].
    apply buildCookies_single. intros ->.
    apply indexOf_absent in Hs. apply Hs. now left.
  - unfold buildCookies; simpl. apply mapThrow_throws.
    + intros x e'. apply cookieOfString_error.
    + exists s. split; [exact Hin|].
      unfold cookieOfString. now rewrite Hs.
Qed.

(** ** Running a computation step by step *)

Lemma bind_ret {A B} (a : A) (k : A -> M B) (t : Trace) :
  bind (ret a) k t = k a t.
Proof. reflexivity. Qed.

Lemma bind_bind {A B C} (m : M A) (k1 : A -> M B) (k2 : B -> M C) (t : Trace) :
  bind (bind m k1) k2 t = bind m (fun a => bind (k1 a) k2) t.
Proof.
  unfold bind. destruct (m t) as [[a|e|c] t']; reflexivity.
Qed.

Lemma bind_throw {A B} (e : Error) (k : A -> M B) (t : Trace) :
  bind (throw e) k t = (Thrown e, t).
Proof. reflexivity. Qed.

Lemma bind_await_resolved {A B} (ev : Reply A -> Event)
    (settle : Trace -> Reply A) (k : A -> M B) (t : Trace) (a : A) :
  settle t = Resolved a ->
  bind (await ev settle) k t = k a (t ++ [ev (Resolved a)])%list.
Proof. intros E. unfold bind, await. now rewrite E. Qed.

Lemma bind_await_rejected {A B} (ev : Reply A -> Event)
    (settle : Trace -> Reply A) (k : A -> M B) (t : Trace) (e : Error) :
  settle t = Rejected e ->
  bind (await ev settle) k t = (Thrown e, (t ++ [ev (Rejected e)])%list).
Proof. intros E. unfold bind, await. now rewrite E. Qed.

Lemma await_resolved {A} (ev : Reply A -> Event)
    (settle : Trace -> Reply A) (t : Trace) (a : A) :
  settle t = Resolved a ->
  await ev settle t = (Returned a, (t ++ [ev (Resolved a)])%list).
Proof. intros E. unfold await. now rewrite E. Qed.

Lemma await_rejected {A} (ev : Reply A -> Event)
    (settle : Trace -> Reply A) (t : Trace) (e : Error) :
  settle t = Rejected e ->
  await ev settle t = (Thrown e, (t ++ [ev (Rejected e)])%list).
Proof. intros E. unfold await. now rewrite E. Qed.

Lemma bind_detached {A B} (ev : Reply A -> Event)
    (settle : Trace -> Reply A) (k : unit -> M B) (t : Trace) :
  bind (detached ev settle) k t = k tt (t ++ [ev (settle t)])%list.
Proof. reflexivity. Qed.

Lemma bind_consoleError {B} (line : string) (attached : option Error)
    (k : unit -> M B) (t : Trace) :
  bind (consoleError line attached) k t
  = k tt (t ++ [ConsoleError line attached])%list.
Proof. reflexivity. Qed.

Lemma bind_stdoutWrite {B} (b : Buffer) (k : unit -> M B) (t : Trace) :
  bind (stdoutWrite b) k t = k tt (t ++ [StdoutWrite b])%list.
Proof. reflexivity. Qed.

Lemma bind_processExit {A B} (code : Z) (k : A -> M B) (t : Trace) :
  bind (processExit code) k t = (Exited code, (t ++ [ProcessExit code])%list).
Proof. reflexivity. Qed.

Lemma bind_fromThrow_inl {A B} (e : Error) (k : A -> M B) (t : Trace) :
  bind (fromThrow (inl e)) k t = (Thrown e, t).
Proof. reflexivity. Qed.

Lemma bind_fromThrow_inr {A B} (a : A) (k : A -> M B) (t : Trace) :
  bind (fromThrow (inr a)) k t = k a t.
Proof. reflexivity. Qed.

(** One step of the run in the goal: the first pending call is settled both
    ways, a test is decided both ways, anything else is pushed onto the
    trace. *)
Ltac step :=
  match goal with
  | |- context [bind (bind ?m ?k1) ?k2 ?t] => rewrite (bind_bind m k1 k2 t)
  | |- context [bind (ret ?a) ?k ?t] => rewrite (bind_ret a k t)
  | |- context [bind (throw ?e) ?k ?t] => rewrite (bind_throw e k t)
  | |- context [bind (await ?ev ?settle) ?k ?t] =>
      let E := fresh "E" in
      destruct (settle t) as [?|?] eqn:E;
      [rewrite (bind_await_resolved ev settle k t _ E)
      |rewrite (bind_await_rejected ev settle k t _ E)]
  | |- context [bind (detached ?ev ?settle) ?k ?t] =>
      rewrite (bind_detached ev settle k t)
  | |- context [bind (consoleError ?l ?a) ?k ?t] =>
      rewrite (bind_consoleError l a k t)
  | |- context [bind (stdoutWrite ?b) ?k ?t] =>
      rewrite (bind_stdoutWrite b k t)
  | |- context [bind (processExit ?c) ?k ?t] =>
      rewrite (bind_processExit c k t)
  | |- context [bind (when ?c ?body) ?k ?t] => unfold when at 1
  | |- context [bind (fromThrow (inl ?e)) ?k ?t] =>
      rewrite (bind_fromThrow_inl e k t)
  | |- context [bind (fromThrow (inr ?a)) ?k ?t] =>
      rewrite (bind_fromThrow_inr a k t)
  | |- context [bind (fromThrow ?r) ?k ?t] => destruct r eqn:?
  | |- context [bind (if ?c then _ else _) _ _] => destruct c eqn:?
  | |- context [bind (match ?x with Some _ => _ | None => _ end) _ _] =>
      first [destruct x as [[? ?]|] eqn:? | destruct x as [?|] eqn:?]
  | |- context [await ?ev ?settle ?t] =>
      let E := fresh "E" in
      destruct (settle t) as [?|?] eqn:E;
      [rewrite (await_resolved ev settle t _ E)
      |rewrite (await_rejected ev settle t _ E)]
  | |- context [processExit ?c ?t] => unfold processExit at 1
  end; cbv beta iota zeta.

Ltac units := repeat match goal with u : unit |- _ => destruct u end.

Ltac run_print :=
  unfold runPrint, printHandler, tryCatch, print, applyCookies;
  repeat step; cbn [app fst snd]; units.

Ltac run_screenshot :=
  unfold runScreenshot, screenshotHandler, tryCatch, screenshot,
    applyViewport, applyCookies;
  repeat step; cbn [app fst snd]; units.

(** ** What a computation can append to the trace *)

Section Emits.

Variable P : Event -> Prop.

Lemma emits_ret {A} (a : A) : emits P (ret a).
Proof. intros t. exists []. simpl. now rewrite app_nil_r. Qed.

Lemma emits_throw {A} (e : Error) : emits P (@throw A e).
Proof. intros t. exists []. simpl. now rewrite app_nil_r. Qed.

Lemma emits_one {A} (m : M A) (f : Trace -> Event) :
  (forall t, snd (m t) = (t ++ [f t])%list) -> (forall t, P (f t)) ->
  emits P m.
Proof. intros Hm HP t. exists [f t]. split; [apply Hm|]. now constructor. Qed.

Lemma emits_await {A} (ev : Reply A -> Event) (settle : Trace -> Reply A) :
  (forall r, P (ev r)) -> emits P (await ev settle).
Proof.
  intros HP. apply emits_one with (f := fun t => ev (settle t)).
  - intros t. unfold await. now destruct (settle t).
  - intros t. apply HP.
Qed.

Lemma emits_detached {A} (ev : Reply A -> Event) (settle : Trace -> Reply A) :
  (forall r, P (ev r)) -> emits P (detached ev settle).
Proof.
  intros HP. apply emits_one with (f := fun t => ev (settle t)); [easy|].
  intros t. apply HP.
Qed.

Lemma emits_consoleError (line : string) (attached : option Error) :
  P (ConsoleError line attached) -> emits P (consoleError line attached).
Proof. intros HP. now apply emits_one with (f := fun _ => ConsoleError line attached). Qed.

Lemma emits_stdoutWrite (b : Buffer) :
  P (StdoutWrite b) -> emits P (stdoutWrite b).
Proof. intros HP. now apply emits_one with (f := fun _ => StdoutWrite b). Qed.

Lemma emits_processExit {A} (code : Z) :
  P (ProcessExit code) -> emits P (@processExit A code).
Proof. intros HP. now apply emits_one with (f := fun _ => ProcessExit code). Qed.

Lemma emits_bind {A B} (m : M A) (k : A -> M B) :
  emits P m -> (forall a, emits P (k a)) -> emits P (bind m k).
Proof.
  intros Hm Hk t. destruct (Hm t) as [ext1 [E1 F1]]. unfold bind.
  destruct (m t) as [[a|e|c] t1]; simpl in E1; subst t1;
    [|now exists ext1..].
  destruct (Hk a (t ++ ext1)%list) as [ext2 [E2 F2]].
  exists (ext1 ++ ext2)%list. rewrite E2, app_assoc. split; [reflexivity|].
  apply Forall_app. now split.
Qed.

(** The continuation only ever sees what the helper returned. *)
Lemma emits_bind_fromThrow {A B} (r : Error + A) (k : A -> M B) :
  (forall a, r = inr a -> emits P (k a)) -> emits P (bind (fromThrow r) k).
Proof.
  intros Hk. destruct r as [e|a]; simpl.
  - intros t. exists []. simpl. now rewrite app_nil_r.
  - intros t. exact (Hk a eq_refl t).
Qed.

Lemma emits_when (c : bool) (body : M unit) :
  emits P body -> emits P (when c body).
Proof. intros Hb. destruct c; simpl; [exact Hb|apply emits_ret]. Qed.

Lemma emits_tryCatch {A} (body : M A) (handler : Error -> M A) :
  emits P body -> (forall e, emits P (handler e)) ->
  emits P (tryCatch body handler).
Proof.
  intros Hb Hh t. destruct (Hb t) as [ext1 [E1 F1]]. unfold tryCatch.
  destruct (body t) as [[a|e|c] t1]; simpl in E1; subst t1;
    [now exists ext1| |now exists ext1].
  destruct (Hh e (t ++ ext1)%list) as [ext2 [E2 F2]].
  exists (ext1 ++ ext2)%list. rewrite E2, app_assoc. split; [reflexivity|].
  apply Forall_app. now split.
Qed.

(** From the empty trace, everything in the trace was emitted. *)
Lemma emits_run {A} (m : M A) : emits P m -> Forall P (snd (m [])).
Proof. intros Hm. destruct (Hm []) as [ext [E F]]. now rewrite E. Qed.

End Emits.

(** Peels a computation down to the events it emits, leaving one goal per
    event. *)
Ltac emits_structure :=
  repeat first
    [ apply emits_bind_fromThrow; intros ? ?
    | apply emits_bind; [|intro]
    | apply emits_tryCatch; [|intro]
    | apply emits_when
    | apply emits_ret
    | apply emits_throw
    | apply emits_await; intro
    | apply emits_detached; intro
    | apply emits_consoleError
    | apply emits_stdoutWrite
    | apply emits_processExit
    | match goal with
      | |- emits _ (if ?c then _ else _) => destruct c
      | |- emits _ (match ?x with Some _ => _ | None => _ end) =>
          first [destruct x as [[? ?]|] | destruct x as [?|]]
      end ].

(** ** Properties of every event of an explicit trace *)

Ltac all_events :=
  repeat first [apply Forall_nil | apply Forall_cons; [simpl; try tauto|]].

(** ** Cookie parsing (C1, C2, C7) *)

Example cookie_first_delimiter_only :
  buildCookies "http://example.com/" (CookieMany ["name:value:extra"; "a:b"])
  = inr [ {| name := "name"; value := "value:extra";
             url := "http://example.com/" |};
          {| name := "a"; value := "b"; url := "http://example.com/" |} ].
Proof. reflexivity. Qed.

(** C1.  The claim asks for one record per [--cookie] string, split at the
    first delimiter, "whether one cookie string or several are supplied".
    With the flag given once yargs stores the string itself, the spread in
    [buildCookies] iterates it character by character, and the first
    character already lacks the delimiter: [name:value] yields no record,
    [buildCookies] throws and the print run ends with status 1 before the
    cookies reach the engine.  Given twice, the same strings are split as
    the claim says. *)
Theorem C1_single_cookie_is_spread_into_characters :
  spreadCookie (CookieOne "name:value")
  = inr ["n"; "a"; "m"; "e"; ":"; "v"; "a"; "l"; "u"; "e"]
  /\ buildCookies "http://example.com/" (CookieOne "name:value")
     = inl delimiterError
  /\ runPrint Sample.libs Sample.engine
       (Sample.printArgv "http://example.com/" None (CookieOne "name:value")
          (Str "Letter") "")
     = (Exited 1,
        [ Launch {| args := [] |} (Resolved tt);
          NewPage (Resolved tt);
          SetJavaScriptEnabled false (Resolved tt);
          ConsoleError "Setting cookies" None;
          ConsoleError printLabel (Some delimiterError);
          ProcessExit 1 ])
  /\ buildCookies "http://example.com/"
       (CookieMany ["name:value"; "name:value:extra"])
     = inr [ {| name := "name"; value := "value";
                url := "http://example.com/" |};
             {| name := "name"; value := "value:extra";
                url := "http://example.com/" |} ].
Proof. repeat split; reflexivity. Qed.

Lemma printHandler_cookie_tags (libs : UrlLibs) (eng : Engine)
    (argv : PrintArgv) :
  Forall (cookiesTagged (p_url argv)) (snd (runPrint libs eng argv)).
Proof.
  apply emits_run. unfold printHandler, print, applyCookies.
  emits_structure; simpl; auto.
  eapply buildCookies_url; eassumption.
Qed.

Lemma screenshotHandler_cookie_tags (libs : UrlLibs) (eng : Engine)
    (argv : ScreenshotArgv) :
  Forall (cookiesTagged (s_url argv)) (snd (runScreenshot libs eng argv)).
Proof.
  apply emits_run. unfold screenshotHandler, screenshot, applyViewport,
    applyCookies.
  emits_structure; simpl; auto.
  eapply buildCookies_url; eassumption.
Qed.

(** C2, as stated, fails: for the local page [index.html] the engine
    navigates to [file:///work/index.html] while the cookies it was handed
    carry [index.html]. *)
Lemma C2_cookies_not_tagged_with_resolved_target :
  resolveTarget Sample.libs "index.html" = inr "file:///work/index.html"
  /\ ~ Forall (cookiesTagged "file:///work/index.html")
         (snd (runPrint Sample.libs Sample.engine
                 (Sample.printArgv "index.html" None
                    (CookieMany ["a:b"; "c:d"]) (Str "Letter") ""))).
Proof.
  split; [reflexivity|].
  intros H. rewrite Forall_forall in H.
  specialize (H (SetCookie
                   [ {| name := "a"; value := "b"; url := "index.html" |};
                     {| name := "c"; value := "d"; url := "index.html" |} ]
                   (Resolved tt))).
  simpl in H. assert (Hk := H ltac:(tauto)).
  inversion Hk as [|k ks Hurl _]. discriminate Hurl.
Qed.

(** C2, amended.  In both commands every cookie record handed to the engine
    carries the positional [url] argument exactly as it was typed, not the
    address [resolveTarget] computes from it. *)
Theorem C2_cookies_tagged_with_url_argument (libs : UrlLibs) (eng : Engine) :
  (forall argv : PrintArgv,
      Forall (cookiesTagged (p_url argv)) (snd (runPrint libs eng argv)))
  /\ (forall argv : ScreenshotArgv,
         Forall (cookiesTagged (s_url argv))
                (snd (runScreenshot libs eng argv))).
Proof.
  split; intros argv.
  - apply printHandler_cookie_tags.
  - apply screenshotHandler_cookie_tags.
Qed.

(** ** Target resolution (C6) *)

Lemma printHandler_target (libs : UrlLibs) (eng : Engine) (argv : PrintArgv)
    (target : string) :
  resolveTarget libs (p_url argv) = inr target ->
  Forall (navigatesTo target) (snd (runPrint libs eng argv)).
Proof.
  intros Htarget. apply emits_run. unfold printHandler, print, applyCookies.
  emits_structure; simpl; auto; congruence.
Qed.

Lemma screenshotHandler_target (libs : UrlLibs) (eng : Engine)
    (argv : ScreenshotArgv) (target : string) :
  resolveTarget libs (s_url argv) = inr target ->
  Forall (navigatesTo target) (snd (runScreenshot libs eng argv)).
Proof.
  intros Htarget. apply emits_run.
  unfold screenshotHandler, screenshot, applyViewport, applyCookies.
  emits_structure; simpl; auto; congruence.
Qed.

Lemma print_unresolved_target (libs : UrlLibs) (eng : Engine)
    (argv : PrintArgv) (e : Error) :
  resolveTarget libs (p_url argv) = inl e ->
  neverNavigates (runPrint libs eng argv)
  /\ (pageOpens eng (p_sandbox argv) ->
      exists r,
        snd (runPrint libs eng argv)
        = [ Launch (buildLaunchOptions (p_sandbox argv)) (Resolved tt);
            NewPage (Resolved tt);
            SetJavaScriptEnabled false r;
            ConsoleError printLabel (Some e);
            ProcessExit 1 ]).
Proof.
  intros Hres. unfold pageOpens, neverNavigates, runPrint, printHandler,
    tryCatch, print, applyCookies.
  rewrite Hres. repeat step; cbn [app fst snd]; units.
  all: split; [split; [reflexivity|all_events]|].
  all: intros [H1 H2]; cbn [app] in *;
    first [congruence | eexists; reflexivity].
Qed.

Lemma screenshot_unresolved_target (libs : UrlLibs) (eng : Engine)
    (argv : ScreenshotArgv) (e : Error) :
  resolveTarget libs (s_url argv) = inl e ->
  neverNavigates (runScreenshot libs eng argv)
  /\ (pageOpens eng (s_sandbox argv) ->
      snd (runScreenshot libs eng argv)
      = [ Launch (buildLaunchOptions (s_sandbox argv)) (Resolved tt);
          NewPage (Resolved tt);
          ConsoleError screenshotLabel (Some e);
          ProcessExit 1 ]).
Proof.
  intros Hres. unfold pageOpens, neverNavigates, runScreenshot,
    screenshotHandler, tryCatch, screenshot, applyViewport, applyCookies.
  rewrite Hres. repeat step; cbn [app fst snd]; units.
  all: split; [split; [reflexivity|all_events]|].
  all: intros [H1 H2]; cbn [app] in *; first [congruence | reflexivity].
Qed.

(** C6.  The claim has every input that is not a URL treated as a path and
    converted to a [file://] address before navigation.  A path that reads
    as a number, as in [print 123], reaches the code as a number: [isUrl]
    is false of it and [fileUrl], which is handed the number itself, throws.
    Whenever the libraries answer a numeric positional in this way, no run
    of either command navigates: it ends with status 1, and once the page
    is open all it does is report the exception of [fileUrl] under the
    label and exit. *)
Theorem C6_numeric_path_is_not_converted (libs : UrlLibs) (eng : Engine)
    (n : Js.number) (e : Error) :
  isUrl libs (PosNumber n) = false ->
  fileUrl libs (PosNumber n) = inl e ->
  (forall argv : PrintArgv,
      p_url argv = PosNumber n ->
      neverNavigates (runPrint libs eng argv)
      /\ (pageOpens eng (p_sandbox argv) ->
          exists r,
            snd (runPrint libs eng argv)
            = [ Launch (buildLaunchOptions (p_sandbox argv)) (Resolved tt);
                NewPage (Resolved tt);
                SetJavaScriptEnabled false r;
                ConsoleError printLabel (Some e);
                ProcessExit 1 ]))
  /\ (forall argv : ScreenshotArgv,
         s_url argv = PosNumber n ->
         neverNavigates (runScreenshot libs eng argv)
         /\ (pageOpens eng (s_sandbox argv) ->
             snd (runScreenshot libs eng argv)
             = [ Launch (buildLaunchOptions (s_sandbox argv)) (Resolved tt);
                 NewPage (Resolved tt);
                 ConsoleError screenshotLabel (Some e);
                 ProcessExit 1 ])).
Proof.
  intros Hurl Hfile. split; intros argv Harg.
  - apply print_unresolved_target.
    unfold resolveTarget. now rewrite Harg, Hurl.
  - apply screenshot_unresolved_target.
    unfold resolveTarget. now rewrite Harg, Hurl.
Qed.

Lemma C6_numeric_path_is_not_converted_witness :
  neverNavigates
    (runPrint Sample.libs Sample.engine
       (Sample.printArgv (PosNumber (Num (inject_Z 123))) None CookieAbsent
          (Str "Letter") ""))
  /\ (exists r,
        snd (runPrint Sample.libs Sample.engine
               (Sample.printArgv (PosNumber (Num (inject_Z 123))) None
                  CookieAbsent (Str "Letter") ""))
        = [ Launch (buildLaunchOptions true) (Resolved tt);
            NewPage (Resolved tt);
            SetJavaScriptEnabled false r;
            ConsoleError printLabel (Some Sample.notAString);
            ProcessExit 1 ]).
Proof.
  pose proof (proj1 (C6_numeric_path_is_not_converted
                       Sample.libs Sample.engine
                       (Num (inject_Z 123)) Sample.notAString
                       eq_refl eq_refl)
                (Sample.printArgv (PosNumber (Num (inject_Z 123))) None
                   CookieAbsent (Str "Letter") "")
                eq_refl) as [Hnever Htrace].
  split; [exact Hnever|].
  apply Htrace. split; reflexivity.
Defined.

(** A path given as text is converted, and a URL given as text is handed
    to the parser: the address either library returns is the only one the
    engine is asked to navigate to. *)
Lemma text_positional_target (libs : UrlLibs) (eng : Engine) (s : string) :
  (forall (argv : PrintArgv) (target : string),
      p_url argv = PosString s ->
      (if isUrl libs s then parseUrl_toString libs s else fileUrl libs s)
      = inr target ->
      Forall (navigatesTo target) (snd (runPrint libs eng argv)))
  /\ (forall (argv : ScreenshotArgv) (target : string),
         s_url argv = PosString s ->
         (if isUrl libs s then parseUrl_toString libs s else fileUrl libs s)
         = inr target ->
         Forall (navigatesTo target) (snd (runScreenshot libs eng argv))).
Proof.
  split; intros argv target Harg Htarget.
  - apply printHandler_target. unfold resolveTarget. now rewrite Harg.
  - apply screenshotHandler_target. unfold resolveTarget. now rewrite Harg.
Qed.

(** ** Membership in an explicit trace *)

Ltac in_trace := cbn [In]; repeat first [left; reflexivity | right].

Ltac not_in_trace H :=
  cbn [In] in H; repeat (destruct H as [H|H]; [discriminate H|]); destruct H.

Ltac ordered :=
  repeat first
    [ apply precedes_nil
    | apply precedes_hit; solve [simpl; eauto]
    | apply precedes_skip; [simpl; tauto|] ].

(** ** Script execution is switched off by [print] only (C9) *)

Lemma screenshot_never_switches_scripts (libs : UrlLibs) (eng : Engine)
    (argv : ScreenshotArgv) :
  Forall (fun e => ~ isSetJavaScriptEnabled e)
         (snd (runScreenshot libs eng argv)).
Proof.
  apply emits_run. unfold screenshotHandler, screenshot, applyViewport,
    applyCookies.
  emits_structure; simpl; tauto.
Qed.

Lemma print_disables_javascript_first (libs : UrlLibs) (eng : Engine)
    (argv : PrintArgv) :
  pageOpens eng (p_sandbox argv) ->
  disablesJavaScriptFirst (p_sandbox argv) (snd (runPrint libs eng argv)).
Proof.
  unfold pageOpens. intros [H1 H2]. run_print.
  all: cbn [app] in *; try congruence.
  all: unfold disablesJavaScriptFirst; eexists _, _.
  all: split; [reflexivity|all_events].
Qed.

Lemma print_without_browser (libs : UrlLibs) (eng : Engine)
    (argv : PrintArgv) (e : Error) :
  on_launch eng [] (buildLaunchOptions (p_sandbox argv)) = Rejected e ->
  runPrint libs eng argv
  = (Exited 1,
     [ Launch (buildLaunchOptions (p_sandbox argv)) (Rejected e);
       ConsoleError printLabel (Some e);
       ProcessExit 1 ]).
Proof. intros H. run_print. all: cbn [app] in *; congruence. Qed.

Lemma print_without_page (libs : UrlLibs) (eng : Engine)
    (argv : PrintArgv) (e : Error) :
  on_launch eng [] (buildLaunchOptions (p_sandbox argv)) = Resolved tt ->
  on_newPage eng [Launch (buildLaunchOptions (p_sandbox argv)) (Resolved tt)]
  = Rejected e ->
  runPrint libs eng argv
  = (Exited 1,
     [ Launch (buildLaunchOptions (p_sandbox argv)) (Resolved tt);
       NewPage (Rejected e);
       ConsoleError printLabel (Some e);
       ProcessExit 1 ]).
Proof. intros H1 H2. run_print. all: cbn [app] in *; congruence. Qed.

(** C9.  In every print run in which the engine creates the page, the call
    [setJavaScriptEnabled(false)] is the event right after the page
    creation, hence before any navigation, and it is made once.  When the
    engine refuses the browser or the page, the run consists of that
    refusal, its report and the exit, and there is no page to call it on.
    No screenshot run ever calls [setJavaScriptEnabled]. *)
Theorem C9_only_print_disables_javascript (libs : UrlLibs) (eng : Engine) :
  (forall argv : PrintArgv,
      pageOpens eng (p_sandbox argv) ->
      disablesJavaScriptFirst (p_sandbox argv)
                              (snd (runPrint libs eng argv)))
  /\ (forall (argv : PrintArgv) (e : Error),
         on_launch eng [] (buildLaunchOptions (p_sandbox argv)) = Rejected e ->
         runPrint libs eng argv
         = (Exited 1,
            [ Launch (buildLaunchOptions (p_sandbox argv)) (Rejected e);
              ConsoleError printLabel (Some e);
              ProcessExit 1 ]))
  /\ (forall (argv : PrintArgv) (e : Error),
         on_launch eng [] (buildLaunchOptions (p_sandbox argv))
         = Resolved tt ->
         on_newPage eng
           [Launch (buildLaunchOptions (p_sandbox argv)) (Resolved tt)]
         = Rejected e ->
         runPrint libs eng argv
         = (Exited 1,
            [ Launch (buildLaunchOptions (p_sandbox argv)) (Resolved tt);
              NewPage (Rejected e);
              ConsoleError printLabel (Some e);
              ProcessExit 1 ]))
  /\ (forall argv : ScreenshotArgv,
         Forall (fun e => ~ isSetJavaScriptEnabled e)
                (snd (runScreenshot libs eng argv))).
Proof.
  split; [|split; [|split]].
  - intros argv. apply print_disables_javascript_first.
  - intros argv e. apply print_without_browser.
  - intros argv e. apply print_without_page.
  - intros argv. apply screenshot_never_switches_scripts.
Qed.

Lemma C9_only_print_disables_javascript_witness :
  disablesJavaScriptFirst true
    (snd (runPrint Sample.libs Sample.engine
            (Sample.printArgv "index.html" None CookieAbsent
               (Str "Letter") "")))
  /\ runPrint Sample.libs
       (Sample.engineSettling (Rejected Sample.noBrowser) (Resolved tt))
       (Sample.printArgv "index.html" None CookieAbsent (Str "Letter") "")
     = (Exited 1,
        [ Launch (buildLaunchOptions true) (Rejected Sample.noBrowser);
          ConsoleError printLabel (Some Sample.noBrowser);
          ProcessExit 1 ])
  /\ runPrint Sample.libs
       (Sample.engineSettling (Resolved tt) (Rejected Sample.targetClosed))
       (Sample.printArgv "index.html" None CookieAbsent (Str "Letter") "")
     = (Exited 1,
        [ Launch (buildLaunchOptions true) (Resolved tt);
          NewPage (Rejected Sample.targetClosed);
          ConsoleError printLabel (Some Sample.targetClosed);
          ProcessExit 1 ]).
Proof.
  split; [|split].
  - apply (proj1 (C9_only_print_disables_javascript
                    Sample.libs Sample.engine)
             (Sample.printArgv "index.html" None CookieAbsent
                (Str "Letter") "")).
    split; reflexivity.
  - apply (proj1 (proj2 (C9_only_print_disables_javascript Sample.libs
                    (Sample.engineSettling (Rejected Sample.noBrowser)
                       (Resolved tt))))
             (Sample.printArgv "index.html" None CookieAbsent
                (Str "Letter") "")).
    reflexivity.
  - apply (proj1 (proj2 (proj2 (C9_only_print_disables_javascript
                    Sample.libs
                    (Sample.engineSettling (Resolved tt)
                       (Rejected Sample.targetClosed)))))
             (Sample.printArgv "index.html" None CookieAbsent
                (Str "Letter") "")).
    + reflexivity.
    + reflexivity.
Defined.

(** ** A cookie without delimiter aborts the run (C7) *)

Ltac cookie_abort :=
  unfold abortsOnCookie; cbn [fst snd];
  split; [reflexivity|]; split; [all_events|]; split; [all_events|];
  first [ solve [intros _; in_trace]
        | let H := fresh in intros H; solve [not_in_trace H] ].

Lemma print_aborts_on_cookie (libs : UrlLibs) (eng : Engine)
    (argv : PrintArgv) :
  cookie_truthy (p_cookie argv) = true ->
  (exists s, In s (supplied (p_cookie argv)) /\ indexOf s colon = -1) ->
  abortsOnCookie printLabel (runPrint libs eng argv).
Proof.
  intros Ht Hs.
  pose proof (buildCookies_missing_delimiter (p_url argv) _ Ht Hs) as Hb.
  unfold runPrint, printHandler, tryCatch, print, applyCookies.
  rewrite Ht, Hb. repeat step; cbn [app]; units; cookie_abort.
Qed.

Lemma screenshot_aborts_on_cookie (libs : UrlLibs) (eng : Engine)
    (argv : ScreenshotArgv) :
  cookie_truthy (s_cookie argv) = true ->
  (exists s, In s (supplied (s_cookie argv)) /\ indexOf s colon = -1) ->
  abortsOnCookie screenshotLabel (runScreenshot libs eng argv).
Proof.
  intros Ht Hs.
  pose proof (buildCookies_missing_delimiter (s_url argv) _ Ht Hs) as Hb.
  unfold runScreenshot, screenshotHandler, tryCatch, screenshot,
    applyViewport, applyCookies.
  rewrite Ht, Hb. repeat step; cbn [app]; units; cookie_abort.
Qed.

(** C7, as stated, fails: [--cookie ""] supplies a string without delimiter,
    yet the empty string is falsy, the cookie block is skipped, the engine
    navigates and the run completes. *)
Lemma C7_empty_cookie_is_skipped :
  In "" (supplied (CookieOne "")) /\ indexOf "" colon = -1
  /\ fst (runPrint Sample.libs Sample.engine
            (Sample.printArgv "http://example.com/" None (CookieOne "")
               (Str "Letter") "")) = Returned tt
  /\ In (Goto "http://example.com/"
           {| nav_timeout := Number (Num (inject_Z 30000));
              nav_waitUntil := "load" |} (Resolved tt))
        (snd (runPrint Sample.libs Sample.engine
                (Sample.printArgv "http://example.com/" None (CookieOne "")
                   (Str "Letter") "")))
  /\ ~ abortsOnCookie printLabel
         (runPrint Sample.libs Sample.engine
            (Sample.printArgv "http://example.com/" None (CookieOne "")
               (Str "Letter") "")).
Proof.
  split; [now left|]. split; [reflexivity|]. split; [reflexivity|].
  split; [in_trace|].
  intros [H _]. discriminate H.
Qed.

(** C7, amended.  In both commands, when the [cookie] option is truthy (an
    array, or a single non-empty string) and one of the supplied strings has
    no delimiter, the run ends with exit status 1, the engine is never asked
    to navigate and never receives a cookie, and once the cookie block is
    entered the error reported is the missing-delimiter error. *)
Theorem C7_missing_delimiter_aborts (libs : UrlLibs) (eng : Engine) :
  (forall argv : PrintArgv,
      cookie_truthy (p_cookie argv) = true ->
      (exists s, In s (supplied (p_cookie argv)) /\ indexOf s colon = -1) ->
      abortsOnCookie printLabel (runPrint libs eng argv))
  /\ (forall argv : ScreenshotArgv,
         cookie_truthy (s_cookie argv) = true ->
         (exists s, In s (supplied (s_cookie argv)) /\ indexOf s colon = -1) ->
         abortsOnCookie screenshotLabel (runScreenshot libs eng argv)).
Proof.
  split; intros argv.
  - apply print_aborts_on_cookie.
  - apply screenshot_aborts_on_cookie.
Qed.

Lemma C7_missing_delimiter_aborts_witness :
  abortsOnCookie printLabel
    (runPrint Sample.libs Sample.engine
       (Sample.printArgv "http://example.com/" None
          (CookieMany ["a:b"; "session"]) (Str "Letter") ""))
  /\ abortsOnCookie screenshotLabel
       (runScreenshot Sample.libs Sample.engine
          (Sample.screenshotArgv "http://example.com/" None
             (CookieOne "session") (Some "800x600"))).
Proof.
  split.
  - apply (proj1 (C7_missing_delimiter_aborts Sample.libs Sample.engine)).
    + reflexivity.
    + exists "session". split; [right; left; reflexivity|reflexivity].
  - apply (proj2 (C7_missing_delimiter_aborts Sample.libs Sample.engine)).
    + reflexivity.
    + exists "session". split; [left; reflexivity|reflexivity].
Defined.

(** ** The viewport option (C5) *)

Lemma spanDigits_split (s d tl : string) :
  spanDigits s = (d, tl) -> s = d ++ tl /\ allDigits d = true.
Proof.
  revert d tl. induction s as [|c s IH]; simpl; intros d tl.
  - now intros [= <- <-].
  - destruct (isDigit c) eqn:Hc.
    + destruct (spanDigits s) as [d' tl'] eqn:E. intros [= <- <-].
      destruct (IH d' tl' eq_refl) as [-> Hd]. simpl. now rewrite Hc, Hd.
    + now intros [= <- <-].
Qed.

Lemma spanDigits_stops (w : string) (c : ascii) (rest : string) :
  allDigits w = true -> isDigit c = false ->
  spanDigits (w ++ String c rest) = (w, String c rest).
Proof.
  intros Hw Hc. induction w as [|a w IH]; simpl in *.
  - now rewrite Hc.
  - apply andb_true_iff in Hw as [Ha Hw]. now rewrite Ha, (IH Hw).
Qed.

Lemma isX_not_digit (c : ascii) : isX c = true -> isDigit c = false.
Proof.
  unfold isX. intros H. apply orb_true_iff in H.
  destruct H as [H|H]; apply Ascii.eqb_eq in H; now subst c.
Qed.

(** [matchViewport] accepts exactly the strings of the pattern
    [<digits>[xX]<digits>] and returns the two digit groups. *)
Lemma matchViewport_spec (s w h : string) :
  matchViewport s = Some (w, h) <->
  exists c, s = w ++ String c h /\ isX c = true
            /\ w <> "" /\ h <> ""
            /\ allDigits w = true /\ allDigits h = true.
Proof.
  unfold matchViewport. split.
  - destruct (spanDigits s) as [d tl] eqn:E.
    destruct d as [|w0 w']; [discriminate|].
    destruct tl as [|c [|h0 h']]; try discriminate.
    destruct (isX c && allDigits (String h0 h'))%bool eqn:B; [|discriminate].
    intros [= <- <-]. apply andb_true_iff in B as [Hx Hh].
    apply spanDigits_split in E as [-> Hd].
    exists c. repeat split; try assumption; discriminate.
  - intros [c [-> [Hx [Hw [Hh [Dw Dh]]]]]].
    rewrite (spanDigits_stops w c h Dw (isX_not_digit c Hx)).
    destruct w as [|w0 w']; [contradiction|].
    destruct h as [|h0 h']; [contradiction|].
    now rewrite Hx, Dh.
Qed.

(** Below 2^53 [parseInt] returns the integer the digits denote. *)
Lemma parseInt_exact (digits : string) :
  (decimal 0 digits <= 2 ^ 53)%N ->
  parseInt digits = Num (inject_Z (Z.of_N (decimal 0 digits))).
Proof.
  intros H. unfold parseInt. apply N.leb_le in H. now rewrite H.
Qed.

(** Settles what the engine is assumed to answer against what it answered
    on the path at hand. *)
Ltac tied :=
  unfold pageOpens, resolves;
  let H1 := fresh in let H2 := fresh in
  let target := fresh in let Ht := fresh in
  intros [H1 H2] [target Ht]; cbn [app] in *;
  first [ congruence | eexists _, _; reflexivity | reflexivity ].

Lemma screenshot_viewport (libs : UrlLibs) (eng : Engine)
    (argv : ScreenshotArgv) (v : string) :
  s_viewport argv = Some v -> v <> "" ->
  viewportHandled eng (s_sandbox argv) (resolves libs (s_url argv)) v
                  (runScreenshot libs eng argv).
Proof.
  intros Hv Hne. destruct v as [|a v]; [contradiction|].
  unfold viewportHandled, resolves, runScreenshot, screenshotHandler,
    tryCatch, screenshot, applyViewport, applyCookies.
  rewrite Hv. cbn [truthy_string].
  destruct (matchViewport (String a v)) as [[w h]|] eqn:Hm.
  - repeat step; cbn [app]; units.
    all: unfold viewportApplied, viewportOf; cbn [snd]; split; [ordered|].
    all: tied.
  - repeat step; cbn [app]; units.
    all: unfold viewportRejected; cbn [fst snd].
    all: split; [reflexivity|]; split; [all_events|]; split; [all_events|].
    all: tied.
Qed.

(** C5, as stated, fails: [--viewport ""] supplies a string that does not
    match the pattern, yet the empty string is falsy, the viewport block is
    skipped and the run navigates and completes. *)
Lemma C5_empty_viewport_is_skipped :
  matchViewport "" = None
  /\ runScreenshot Sample.libs Sample.engine
       (Sample.screenshotArgv "http://example.com/" None CookieAbsent
          (Some ""))
     = (Returned tt,
        [ Launch {| args := [] |} (Resolved tt);
          NewPage (Resolved tt);
          ConsoleError "Loading http://example.com/" None;
          Goto "http://example.com/"
            {| nav_timeout := Number (Num (inject_Z 30000));
               nav_waitUntil := "load" |} (Resolved tt);
          ConsoleError "Writing STDOUT" None;
          Screenshot {| shot_path := None; shot_fullPage := true;
                        shot_omitBackground := false |}
            (Resolved Sample.rendered);
          StdoutWrite Sample.rendered;
          ConsoleError "Done" None;
          Close (Resolved tt) ])
  /\ ~ viewportHandled Sample.engine true
         (resolves Sample.libs "http://example.com/") ""
         (runScreenshot Sample.libs Sample.engine
            (Sample.screenshotArgv "http://example.com/" None CookieAbsent
               (Some ""))).
Proof.
  split; [reflexivity|]. split; [reflexivity|].
  intros [H _]. discriminate H.
Qed.

(** C5, amended.  The pattern accepts [800x600] and [800X600] with width 800
    and height 600 and rejects [800x], [x600] and [abcxdef].  In a
    screenshot run with a non-empty [--viewport] string that matches, no
    navigation is attempted before [setViewport] has been called with the
    parsed width and height; with one that does not match, the run ends
    with exit status 1 without navigation and without a viewport change.
    The option is looked at after the browser is launched, the page opened
    and the target address resolved: when the engine grants the first two
    and the address resolves, the run logs the viewport and calls
    [setViewport] right after the page creation on a match, and does nothing
    but write the usage message and exit otherwise.  (An empty string is
    left out.) *)
Theorem C5_viewport_option (libs : UrlLibs) (eng : Engine) :
  (matchViewport "800x600" = Some ("800", "600")
   /\ matchViewport "800X600" = Some ("800", "600")
   /\ viewportOf "800" "600"
      = {| vp_width := Num (inject_Z 800); vp_height := Num (inject_Z 600) |}
   /\ matchViewport "800x" = None
   /\ matchViewport "x600" = None
   /\ matchViewport "abcxdef" = None)
  /\ (forall (argv : ScreenshotArgv) (v : string),
         s_viewport argv = Some v -> v <> "" ->
         viewportHandled eng (s_sandbox argv) (resolves libs (s_url argv)) v
                         (runScreenshot libs eng argv)).
Proof.
  split; [repeat split; reflexivity|].
  intros argv v. apply screenshot_viewport.
Qed.

Lemma C5_viewport_option_witness :
  viewportHandled Sample.engine true
    (resolves Sample.libs "http://example.com/") "800X600"
    (runScreenshot Sample.libs Sample.engine
       (Sample.screenshotArgv "http://example.com/" None CookieAbsent
          (Some "800X600")))
  /\ viewportHandled Sample.engine true
       (resolves Sample.libs "http://example.com/") "abcxdef"
       (runScreenshot Sample.libs Sample.engine
          (Sample.screenshotArgv "http://example.com/" None CookieAbsent
             (Some "abcxdef"))).
Proof.
  split.
  - apply (proj2 (C5_viewport_option Sample.libs Sample.engine)
             (Sample.screenshotArgv "http://example.com/" None CookieAbsent
                (Some "800X600"))).
    + reflexivity.
    + discriminate.
  - apply (proj2 (C5_viewport_option Sample.libs Sample.engine)
             (Sample.screenshotArgv "http://example.com/" None CookieAbsent
                (Some "abcxdef"))).
    + reflexivity.
    + discriminate.
Defined.

(** What the two branches amount to on a run the engine lets through. *)
Example viewport_runs :
  (exists rest,
      snd (runScreenshot Sample.libs Sample.engine
             (Sample.screenshotArgv "http://example.com/" None CookieAbsent
                (Some "800X600")))
      = Launch {| args := [] |} (Resolved tt)
        :: NewPage (Resolved tt)
        :: ConsoleError "Setting viewport to 800x600" None
        :: SetViewport {| vp_width := Num (inject_Z 800);
                          vp_height := Num (inject_Z 600) |} (Resolved tt)
        :: rest)
  /\ runScreenshot Sample.libs Sample.engine
       (Sample.screenshotArgv "http://example.com/" None CookieAbsent
          (Some "abcxdef"))
     = (Exited 1,
        [ Launch {| args := [] |} (Resolved tt);
          NewPage (Resolved tt);
          ConsoleError viewportUsage None;
          ProcessExit 1 ]).
Proof. split; [eexists; reflexivity|reflexivity]. Qed.

(** ** Page size of the PDF (C3) *)









(** ** Where the rendered buffer goes (C4) *)

Ltac sink_cases :=
  unfold sinkFor, sinks, savedFiles, stdoutWrites, renderedBuffers,
    pdfOptions, screenshotOptions;
  cbn [fst snd flat_map app pdf_path shot_path or_null truthy_string];
  repeat match goal with
         | H : _ = _ :> option string |- _ => rewrite H
         end;
  cbn [or_null truthy_string app];
  split;
  [ first [ solve [intros H; discriminate H]
          | intros _; eexists; repeat split; reflexivity ]
  | first [ left; reflexivity | right; reflexivity ] ].

Lemma print_sink (libs : UrlLibs) (eng : Engine) (argv : PrintArgv) :
  sinkFor (or_null (p_output argv)) (runPrint libs eng argv).
Proof.
  unfold runPrint, printHandler, tryCatch, print, applyCookies.
  destruct (p_output argv) as [[|c p]|] eqn:Hout;
    cbn [truthy_opt truthy_string negb or_null];
    repeat step; cbn [app]; units; sink_cases.
Qed.

Lemma screenshot_sink (libs : UrlLibs) (eng : Engine) (argv : ScreenshotArgv) :
  sinkFor (or_null (s_output argv)) (runScreenshot libs eng argv).
Proof.
  unfold runScreenshot, screenshotHandler, tryCatch, screenshot,
    applyViewport, applyCookies.
  destruct (s_output argv) as [[|c p]|] eqn:Hout;
    cbn [truthy_opt truthy_string negb or_null];
    repeat step; cbn [app]; units; sink_cases.
Qed.

(** C4, as stated, fails: with the empty string as [output] argument the
    run succeeds, the render call gets no path, no file is saved and the
    buffer goes to standard output. *)
Lemma C4_empty_output_goes_to_stdout :
  fst (runPrint Sample.libs Sample.engine
         (Sample.printArgv "index.html" (Some "") CookieAbsent
            (Str "Letter") "")) = Returned tt
  /\ ~ sinks (Some "")
         (snd (runPrint Sample.libs Sample.engine
                 (Sample.printArgv "index.html" (Some "") CookieAbsent
                    (Str "Letter") "")))
  /\ savedFiles
       (snd (runPrint Sample.libs Sample.engine
               (Sample.printArgv "index.html" (Some "") CookieAbsent
                  (Str "Letter") ""))) = []
  /\ stdoutWrites
       (snd (runPrint Sample.libs Sample.engine
               (Sample.printArgv "index.html" (Some "") CookieAbsent
                  (Str "Letter") ""))) = [Sample.rendered].
Proof.
  split; [reflexivity|]. split; [|split; reflexivity].
  intros [b [_ [Hfiles _]]]. discriminate Hfiles.
Qed.

(** C4, amended.  In every successful run of either command exactly one
    buffer is rendered; when the [output] argument is a non-empty string
    the render call saves it at that path and nothing is written to
    standard output; when [output] is absent (or the empty string) no file
    is saved and the buffer is written to standard output.  No run,
    successful or not, uses both sinks. *)
Theorem C4_exactly_one_sink (libs : UrlLibs) (eng : Engine) :
  (forall argv : PrintArgv,
      fst (runPrint libs eng argv) = Returned tt ->
      sinks (or_null (p_output argv)) (snd (runPrint libs eng argv)))
  /\ (forall argv : ScreenshotArgv,
         fst (runScreenshot libs eng argv) = Returned tt ->
         sinks (or_null (s_output argv)) (snd (runScreenshot libs eng argv)))
  /\ (forall argv : PrintArgv,
         savedFiles (snd (runPrint libs eng argv)) = []
         \/ stdoutWrites (snd (runPrint libs eng argv)) = [])
  /\ (forall argv : ScreenshotArgv,
         savedFiles (snd (runScreenshot libs eng argv)) = []
         \/ stdoutWrites (snd (runScreenshot libs eng argv)) = []).
Proof.
  repeat split; intros argv.
  - apply (print_sink libs eng argv).
  - apply (screenshot_sink libs eng argv).
  - apply (print_sink libs eng argv).
  - apply (screenshot_sink libs eng argv).
Qed.

Lemma C4_exactly_one_sink_witness :
  sinks (Some "out.pdf")
    (snd (runPrint Sample.libs Sample.engine
            (Sample.printArgv "index.html" (Some "out.pdf") CookieAbsent
               (Str "Letter") "")))
  /\ sinks None
       (snd (runScreenshot Sample.libs Sample.engine
               (Sample.screenshotArgv "index.html" None CookieAbsent None))).
Proof.
  split.
  - apply (proj1 (C4_exactly_one_sink Sample.libs Sample.engine)
             (Sample.printArgv "index.html" (Some "out.pdf") CookieAbsent
                (Str "Letter") "")).
    reflexivity.
  - apply (proj1 (proj2 (C4_exactly_one_sink Sample.libs Sample.engine))
             (Sample.screenshotArgv "index.html" None CookieAbsent None)).
    reflexivity.
Defined.

(** ** Failure policy (C8) *)

Ltac policy_cases :=
  unfold failurePolicy; cbn [fst snd reported awaitedRejection];
  split;
  [ first [exact I | reflexivity]
  | first [ reflexivity
          | repeat first [apply Forall_nil | apply Forall_cons; [reflexivity|]] ] ].

(** The awaited calls of [print] follow the policy of section 4.4. *)
Lemma print_failure_policy (libs : UrlLibs) (eng : Engine) (argv : PrintArgv) :
  failurePolicy printLabel (runPrint libs eng argv).
Proof. run_print; policy_cases. Qed.

Lemma screenshot_failure_policy (libs : UrlLibs) (eng : Engine)
    (argv : ScreenshotArgv) :
  failurePolicy screenshotLabel (runScreenshot libs eng argv).
Proof. run_screenshot; policy_cases. Qed.

(** C8.  The claim covers every step of the pipeline.  One step of [print],
    [page.setJavaScriptEnabled(false)], is called without [await]: when its
    promise rejects the rejection never reaches the handler.  Nothing is
    reported under the label, the handler does not exit, and the pipeline
    goes on to navigate, render and write the result. *)
Theorem C8_rejection_of_unawaited_call_is_not_handled :
  runPrint Sample.libs Sample.engineRejectingScriptSwitch
    (Sample.printArgv "http://example.com/a" None CookieAbsent
       (Str "Letter") "")
  = (Returned tt,
     [ Launch {| args := [] |} (Resolved tt);
       NewPage (Resolved tt);
       SetJavaScriptEnabled false (Rejected Sample.targetClosed);
       ConsoleError "Loading http://example.com/a" None;
       Goto "http://example.com/a"
         {| nav_timeout := Number (Num (inject_Z 30000));
            nav_waitUntil := "load" |} (Resolved tt);
       ConsoleError "Writing STDOUT" None;
       Pdf (pdfOptions
              (Sample.printArgv "http://example.com/a" None CookieAbsent
                 (Str "Letter") "") Undefined Undefined)
           (Resolved Sample.rendered);
       StdoutWrite Sample.rendered;
       ConsoleError "Done" None;
       Close (Resolved tt) ]).
Proof. reflexivity. Qed.

(** ** Script injection (C10) *)



Example injection_with_before_slot :
  snd (runPrint Sample.libs (Sample.engineOn Sample.documentWithBefore)
         (Sample.printArgv "index.html" (Some "out.pdf") CookieAbsent
            (Str "Letter") "document.title = 1"))
  = [ Launch {| args := [] |} (Resolved tt);
      NewPage (Resolved tt);
      SetJavaScriptEnabled false (Resolved tt);
      ConsoleError "Loading file:///work/index.html" None;
      Goto "file:///work/index.html"
        {| nav_timeout := Number (Num (inject_Z 30000));
           nav_waitUntil := "load" |} (Resolved tt);
      ConsoleError "Writing out.pdf" None;
      EvaluateFunction (Resolved Sample.documentWithBefore);
      Evaluate "var a = 1;document.title = 1;" (Resolved Undefined);
      Pdf (pdfOptions
             (Sample.printArgv "index.html" (Some "out.pdf") CookieAbsent
                (Str "Letter") "document.title = 1") Undefined Undefined)
          (Resolved Sample.rendered);
      ConsoleError "Done" None;
      Close (Resolved tt) ].
Proof. reflexivity. Qed.




(** * Further properties of the code *)

(** ** [buildCookies] on its two input shapes *)

(** X1.  Given an array of strings that all contain the delimiter,
    [buildCookies] returns one record per string, in order: the string is
    the name, the delimiter and the value put together again, the name has
    no delimiter in it (the value may), and the [url] field is the [url]
    it was given. *)
Theorem X1_array_of_cookies_split_at_first_delimiter
    (u : Positional) (l : list string) :
  Forall (occurs colon) l ->
  exists cs,
    buildCookies u (CookieMany l) = inr cs
    /\ List.length cs = List.length l
    /\ Forall2 (fun s k => s = name k ++ String colon (value k)
                           /\ ~ occurs colon (name k) /\ url k = u) l cs.
Proof.
  intros Hall. destruct (buildCookies_array u l Hall) as [cs [Hcs Hsplit]].
  exists cs. split; [exact Hcs|]. split; [|exact Hsplit].
  symmetry. exact (Forall2_length Hsplit).
Qed.

Lemma X1_array_of_cookies_split_at_first_delimiter_witness :
  exists cs,
    buildCookies "http://example.com/" (CookieMany ["a:b:c"; ":"; "k:"])
    = inr cs
    /\ List.length cs = 3%nat
    /\ Forall2 (fun s k => s = name k ++ String colon (value k)
                           /\ ~ occurs colon (name k)
                           /\ url k = "http://example.com/")
               ["a:b:c"; ":"; "k:"] cs.
Proof.
  apply (X1_array_of_cookies_split_at_first_delimiter
           "http://example.com/" ["a:b:c"; ":"; "k:"]).
  constructor; [right; left; reflexivity|].
  constructor; [left; reflexivity|].
  constructor; [right; left; reflexivity|].
  constructor.
Defined.

Lemma cookieOfString_char (u : Positional) (a : ascii) :
  cookieOfString u (String a EmptyString)
  = if Ascii.eqb a colon then inr (emptyCookie u) else inl delimiterError.
Proof.
  unfold cookieOfString. simpl indexOf.
  destruct (Ascii.eqb a colon); reflexivity.
Qed.

(** X2.  Given a single string, [buildCookies] treats each character as a
    cookie string of its own: it succeeds only on a string made of
    delimiters, with one record of empty name and empty value per
    character, and throws the missing-delimiter error on any other
    string. *)
Theorem X2_single_string_is_read_per_character (u : Positional)
    (s : string) :
  buildCookies u (CookieOne s)
  = if allColons s
    then inr (repeat (emptyCookie u) (String.length s))
    else inl delimiterError.
Proof.
  unfold buildCookies. simpl spreadCookie. cbv iota beta.
  induction s as [|a s IH]; [reflexivity|].
  simpl chars. simpl mapThrow. rewrite cookieOfString_char.
  simpl allColons. destruct (Ascii.eqb a colon); [|reflexivity].
  rewrite IH. simpl. now destruct (allColons s).
Qed.

(** ** The viewport pattern *)

(** X3.  The viewport pattern accepts exactly the strings made of one or
    more decimal digits, an [x] or [X], and one or more decimal digits, and
    its two groups are the digits before and after the letter. *)
Theorem X3_viewport_pattern_language (s w h : string) :
  matchViewport s = Some (w, h) <->
  exists c, s = w ++ String c h /\ isX c = true
            /\ w <> "" /\ h <> ""
            /\ allDigits w = true /\ allDigits h = true.
Proof. apply matchViewport_spec. Qed.

(** ** What every run does, and how often *)

Lemma print_launches_first (libs : UrlLibs) (eng : Engine) (argv : PrintArgv) :
  launchesFirst (p_sandbox argv) (snd (runPrint libs eng argv)).
Proof.
  run_print; unfold launchesFirst, buildLaunchOptions.
  all: destruct (p_sandbox argv); eexists _, _; split; reflexivity.
Qed.

Lemma screenshot_launches_first (libs : UrlLibs) (eng : Engine)
    (argv : ScreenshotArgv) :
  launchesFirst (s_sandbox argv) (snd (runScreenshot libs eng argv)).
Proof.
  run_screenshot; unfold launchesFirst, buildLaunchOptions.
  all: destruct (s_sandbox argv); eexists _, _; split; reflexivity.
Qed.

(** X4.  Every run of either command begins by launching the browser, with
    the arguments [--no-sandbox] and [--disable-setuid-sandbox] exactly when
    the [sandbox] option is false and with no argument otherwise, and it
    launches no second browser. *)
Theorem X4_browser_launched_first_and_once (libs : UrlLibs) (eng : Engine) :
  (forall argv : PrintArgv,
      launchesFirst (p_sandbox argv) (snd (runPrint libs eng argv)))
  /\ (forall argv : ScreenshotArgv,
         launchesFirst (s_sandbox argv) (snd (runScreenshot libs eng argv))).
Proof.
  split; intros argv.
  - apply print_launches_first.
  - apply screenshot_launches_first.
Qed.

Lemma print_navigates_with (libs : UrlLibs) (eng : Engine) (argv : PrintArgv) :
  Forall (navigatesWith (p_timeout argv) (p_waitUntil argv))
         (snd (runPrint libs eng argv)).
Proof.
  apply emits_run. unfold printHandler, print, applyCookies.
  emits_structure; simpl; auto.
Qed.

Lemma screenshot_navigates_with (libs : UrlLibs) (eng : Engine)
    (argv : ScreenshotArgv) :
  Forall (navigatesWith (s_timeout argv) (s_waitUntil argv))
         (snd (runScreenshot libs eng argv)).
Proof.
  apply emits_run. unfold screenshotHandler, screenshot, applyViewport,
    applyCookies.
  emits_structure; simpl; auto.
Qed.

(** X5.  In both commands every navigation is asked with the [timeout] and
    the [waitUntil] of the option bag, unchanged. *)
Theorem X5_navigation_options_pass_through (libs : UrlLibs) (eng : Engine) :
  (forall argv : PrintArgv,
      Forall (navigatesWith (p_timeout argv) (p_waitUntil argv))
             (snd (runPrint libs eng argv)))
  /\ (forall argv : ScreenshotArgv,
         Forall (navigatesWith (s_timeout argv) (s_waitUntil argv))
                (snd (runScreenshot libs eng argv))).
Proof.
  split; intros argv.
  - apply print_navigates_with.
  - apply screenshot_navigates_with.
Qed.

Ltac bounded :=
  unfold withinBounds;
  let k := fresh "k" in
  intros k; destruct k; cbn; lia.

Lemma print_within_bounds (libs : UrlLibs) (eng : Engine) (argv : PrintArgv) :
  withinBounds printBound (snd (runPrint libs eng argv)).
Proof. run_print; bounded. Qed.

Lemma screenshot_within_bounds (libs : UrlLibs) (eng : Engine)
    (argv : ScreenshotArgv) :
  withinBounds screenshotBound (snd (runScreenshot libs eng argv)).
Proof. run_screenshot; bounded. Qed.

(** X6.  No call is repeated and neither command uses the other's calls.  A
    print run launches, opens a page, switches scripts off, sets cookies,
    navigates, reads the injection slots, emulates a media type, renders a
    PDF, writes to standard output, closes and exits at most once each,
    evaluates at most two expressions, and never sets a viewport nor takes
    a screenshot.  A screenshot run makes each of its calls at most once
    and never switches scripts off, evaluates anything, emulates a media
    type nor renders a PDF. *)
Theorem X6_no_call_is_repeated (libs : UrlLibs) (eng : Engine) :
  (forall argv : PrintArgv,
      withinBounds printBound (snd (runPrint libs eng argv)))
  /\ (forall argv : ScreenshotArgv,
         withinBounds screenshotBound (snd (runScreenshot libs eng argv))).
Proof.
  split; intros argv.
  - apply print_within_bounds.
  - apply screenshot_within_bounds.
Qed.

(** ** Failures, exit status and the browser *)

(** X7.  In both commands, when an awaited engine call rejects, the trace
    ends right there with the report of that very error under the
    command's label and the exit with status 1: no call is retried and
    nothing else runs.  A run that returns has seen no awaited call reject,
    no exception leaves the handler, and no exit status other than 1 is
    used. *)
Theorem X7_awaited_rejection_reported_then_exit (libs : UrlLibs)
    (eng : Engine) :
  (forall argv : PrintArgv,
      failurePolicy printLabel (runPrint libs eng argv))
  /\ (forall argv : ScreenshotArgv,
         failurePolicy screenshotLabel (runScreenshot libs eng argv)).
Proof.
  split; intros argv.
  - apply print_failure_policy.
  - apply screenshot_failure_policy.
Qed.








(** The run of [print 123]: the page is opened, the conversion of the
    number throws, and that is what the handler reports. *)
Example numeric_positional_outcome :
  runPrint Sample.libs Sample.engine
    (Sample.printArgv (PosNumber (Num (inject_Z 123))) None CookieAbsent
       (Str "Letter") "")
  = (Exited 1,
     [ Launch {| args := [] |} (Resolved tt);
       NewPage (Resolved tt);
       SetJavaScriptEnabled false (Resolved tt);
       ConsoleError printLabel (Some Sample.notAString);
       ProcessExit 1 ]).
Proof. reflexivity. Qed.

Ltac close_cases :=
  unfold closesOnSuccess; cbn [fst snd closeRequests flat_map app];
  first [reflexivity | left; reflexivity | right; eexists; reflexivity].

Lemma print_closes_on_success (libs : UrlLibs) (eng : Engine)
    (argv : PrintArgv) :
  closesOnSuccess (runPrint libs eng argv).
Proof. run_print; close_cases. Qed.

Lemma screenshot_closes_on_success (libs : UrlLibs) (eng : Engine)
    (argv : ScreenshotArgv) :
  closesOnSuccess (runScreenshot libs eng argv).
Proof. run_screenshot; close_cases. Qed.

(** X9.  In both commands [browser.close()] is the last step of a
    successful run only: a run that returns has closed the browser, once;
    a run that exits with an error either never asked for the close, so
    the browser it launched is left running, or failed on the close
    itself. *)
Theorem X9_browser_closed_only_on_success (libs : UrlLibs) (eng : Engine) :
  (forall argv : PrintArgv, closesOnSuccess (runPrint libs eng argv))
  /\ (forall argv : ScreenshotArgv,
         closesOnSuccess (runScreenshot libs eng argv)).
Proof.
  split; intros argv.
  - apply print_closes_on_success.
  - apply screenshot_closes_on_success.
Qed.

Ltac stdout_cases :=
  unfold stdoutIsRendered, savedFiles, stdoutWrites, renderedBuffers,
    pdfOptions, screenshotOptions;
  cbn [fst snd flat_map app pdf_path shot_path or_null truthy_string];
  repeat match goal with
         | H : _ = _ :> option string |- _ => rewrite H
         end;
  cbn [or_null truthy_string app];
  first [ left; reflexivity
        | right; eexists; repeat split; reflexivity ].

Lemma print_stdout_is_rendered (libs : UrlLibs) (eng : Engine)
    (argv : PrintArgv) :
  stdoutIsRendered (snd (runPrint libs eng argv)).
Proof.
  unfold runPrint, printHandler, tryCatch, print, applyCookies.
  destruct (p_output argv) as [[|c p]|] eqn:Hout;
    cbn [truthy_opt truthy_string negb or_null];
    repeat step; cbn [app snd]; units; stdout_cases.
Qed.

Lemma screenshot_stdout_is_rendered (libs : UrlLibs) (eng : Engine)
    (argv : ScreenshotArgv) :
  stdoutIsRendered (snd (runScreenshot libs eng argv)).
Proof.
  unfold runScreenshot, screenshotHandler, tryCatch, screenshot,
    applyViewport, applyCookies.
  destruct (s_output argv) as [[|c p]|] eqn:Hout;
    cbn [truthy_opt truthy_string negb or_null];
    repeat step; cbn [app snd]; units; stdout_cases.
Qed.

(** X10.  Whatever happens in a run of either command, failing or not,
    standard output receives nothing, or exactly one write: the buffer the
    render call resolved with, in a run whose render call was given no
    path.  No diagnostic ever goes there. *)
Theorem X10_stdout_carries_only_the_rendering (libs : UrlLibs)
    (eng : Engine) :
  (forall argv : PrintArgv,
      stdoutIsRendered (snd (runPrint libs eng argv)))
  /\ (forall argv : ScreenshotArgv,
         stdoutIsRendered (snd (runScreenshot libs eng argv))).
Proof.
  split; intros argv.
  - apply print_stdout_is_rendered.
  - apply screenshot_stdout_is_rendered.
Qed.

(** ** The optional steps *)

Ltac every_event :=
  repeat first
    [ apply Forall_nil
    | apply Forall_cons; [first [exact I | reflexivity]|] ].

Ltac absent H := cbn [In] in H; simpl in H; not_in_trace H.

Lemma print_cookie_step (libs : UrlLibs) (eng : Engine) (argv : PrintArgv)
    (cookies : list Cookie) :
  cookie_truthy (p_cookie argv) = false
  \/ buildCookies (p_url argv) (p_cookie argv) = inr cookies ->
  cookieStep (p_cookie argv) cookies (snd (runPrint libs eng argv)).
Proof.
  unfold runPrint, printHandler, tryCatch, print, applyCookies.
  destruct (cookie_truthy (p_cookie argv)) eqn:Ht; intros [H|H];
    try discriminate H; try rewrite H.
  all: repeat step; cbn [app snd]; units.
  all: unfold cookieStep; rewrite Ht.
  all: first [ solve [split; [solve [ordered]|every_event]]
             | split; [reflexivity|];
               let Hin := fresh in intros Hin; solve [absent Hin] ].
Qed.

Lemma screenshot_cookie_step (libs : UrlLibs) (eng : Engine)
    (argv : ScreenshotArgv) (cookies : list Cookie) :
  cookie_truthy (s_cookie argv) = false
  \/ buildCookies (s_url argv) (s_cookie argv) = inr cookies ->
  cookieStep (s_cookie argv) cookies (snd (runScreenshot libs eng argv)).
Proof.
  unfold runScreenshot, screenshotHandler, tryCatch, screenshot,
    applyViewport, applyCookies.
  destruct (cookie_truthy (s_cookie argv)) eqn:Ht; intros [H|H];
    try discriminate H; try rewrite H.
  all: repeat step; cbn [app snd]; units.
  all: unfold cookieStep; rewrite Ht.
  all: first [ solve [split; [solve [ordered]|every_event]]
             | split; [reflexivity|];
               let Hin := fresh in intros Hin; solve [absent Hin] ].
Qed.

(** X11.  In both commands, when the [cookie] option is falsy the cookie
    block leaves no mark: [setCookie] is never called and the line
    [Setting cookies] is never written.  When it is truthy and
    [buildCookies] returns, [setCookie] is only ever called with the whole
    list it returned, and no navigation is attempted before that call. *)
Theorem X11_cookies_are_set_before_navigation (libs : UrlLibs)
    (eng : Engine) :
  (forall (argv : PrintArgv) (cookies : list Cookie),
      cookie_truthy (p_cookie argv) = false
      \/ buildCookies (p_url argv) (p_cookie argv) = inr cookies ->
      cookieStep (p_cookie argv) cookies (snd (runPrint libs eng argv)))
  /\ (forall (argv : ScreenshotArgv) (cookies : list Cookie),
         cookie_truthy (s_cookie argv) = false
         \/ buildCookies (s_url argv) (s_cookie argv) = inr cookies ->
         cookieStep (s_cookie argv) cookies
                    (snd (runScreenshot libs eng argv))).
Proof.
  split; intros argv cookies.
  - apply print_cookie_step.
  - apply screenshot_cookie_step.
Qed.

Lemma X11_cookies_are_set_before_navigation_witness :
  cookieStep (CookieMany ["a:b"; "c:d:e"])
    [ {| name := "a"; value := "b"; url := "index.html" |};
      {| name := "c"; value := "d:e"; url := "index.html" |} ]
    (snd (runPrint Sample.libs Sample.engine
            (Sample.printArgv "index.html" None (CookieMany ["a:b"; "c:d:e"])
               (Str "Letter") "")))
  /\ cookieStep CookieAbsent []
       (snd (runScreenshot Sample.libs Sample.engine
               (Sample.screenshotArgv "index.html" None CookieAbsent None))).
Proof.
  split.
  - apply (proj1 (X11_cookies_are_set_before_navigation
                    Sample.libs Sample.engine)
             (Sample.printArgv "index.html" None
                (CookieMany ["a:b"; "c:d:e"]) (Str "Letter") "")).
    right. reflexivity.
  - apply (proj2 (X11_cookies_are_set_before_navigation
                    Sample.libs Sample.engine)
             (Sample.screenshotArgv "index.html" None CookieAbsent None)).
    left. reflexivity.
Defined.

Lemma print_media_step (libs : UrlLibs) (eng : Engine) (argv : PrintArgv) :
  mediaStep (p_emulateMedia argv) (snd (runPrint libs eng argv)).
Proof.
  unfold runPrint, printHandler, tryCatch, print, applyCookies.
  destruct (truthy_string (p_emulateMedia argv)) eqn:Hm.
  all: repeat step; cbn [app snd]; units.
  all: unfold mediaStep; rewrite Hm.
  all: first [ reflexivity
             | split; [every_event|split; solve [ordered]] ].
Qed.

(** X12.  In a print run with an empty [--emulate-media] no media type is
    ever emulated.  With a non-empty one, the only media type emulated is
    the one given, the emulation is asked only after a navigation has
    succeeded, and nothing is rendered before it has been asked. *)
Theorem X12_media_emulated_between_navigation_and_render
    (libs : UrlLibs) (eng : Engine) (argv : PrintArgv) :
  mediaStep (p_emulateMedia argv) (snd (runPrint libs eng argv)).
Proof. apply print_media_step. Qed.

(** X13.  In a print run with [--format auto] the page is measured before
    the injection: no page function is evaluated before the measuring
    expression has been, so the height handed to the PDF is that of the
    page as loaded, not as modified by the injected script. *)
Theorem X13_page_measured_before_injection (libs : UrlLibs) (eng : Engine)
    (argv : PrintArgv) :
  loose_eq_string (p_format argv) "auto" = true ->
  precedes (fun e => exists r, e = Evaluate maxHeightExpression r)
           isEvaluateFunction
           (snd (runPrint libs eng argv)).
Proof.
  intros Hauto. run_print.
  all: first [solve [ordered] | congruence].
Qed.

Lemma X13_page_measured_before_injection_witness :
  precedes (fun e => exists r, e = Evaluate maxHeightExpression r)
           isEvaluateFunction
           (snd (runPrint Sample.libs
                   (Sample.engineOn Sample.documentWithBefore)
                   (Sample.printArgv "index.html" None CookieAbsent
                      (Str "auto") "document.title = 1"))).
Proof.
  apply (X13_page_measured_before_injection Sample.libs
           (Sample.engineOn Sample.documentWithBefore)).
  reflexivity.
Defined.

Lemma print_nothing_injected (libs : UrlLibs) (eng : Engine)
    (argv : PrintArgv) :
  p_injectJs argv = "" -> nothingInjected (snd (runPrint libs eng argv)).
Proof.
  intros Hinj.
  unfold runPrint, printHandler, tryCatch, print, applyCookies.
  rewrite Hinj. cbn [truthy_string].
  repeat step; cbn [app snd]; units.
  all: unfold nothingInjected; split; [reflexivity|every_event].
Qed.

(** X14.  In a print run with an empty [--inject-js] the page is left
    alone: no page function is evaluated in it, and the only expression
    that may be evaluated is the measuring one. *)
Theorem X14_nothing_injected_without_script (libs : UrlLibs) (eng : Engine)
    (argv : PrintArgv) :
  p_injectJs argv = "" -> nothingInjected (snd (runPrint libs eng argv)).
Proof. apply print_nothing_injected. Qed.

Lemma X14_nothing_injected_without_script_witness :
  nothingInjected
    (snd (runPrint Sample.libs Sample.engine
            (Sample.printArgv "index.html" None CookieAbsent
               (Str "auto") ""))).
Proof.
  apply (X14_nothing_injected_without_script Sample.libs Sample.engine).
  reflexivity.
Defined.

Lemma screenshot_viewport_untouched (libs : UrlLibs) (eng : Engine)
    (argv : ScreenshotArgv) :
  truthy_opt (s_viewport argv) = false ->
  viewportUntouched (runScreenshot libs eng argv).
Proof.
  unfold runScreenshot, screenshotHandler, tryCatch, screenshot,
    applyViewport, applyCookies.
  destruct (s_viewport argv) as [[|a v]|] eqn:Hv; intros Ht;
    try discriminate Ht; cbn [truthy_string when].
  all: repeat step; cbn [app snd]; units.
  all: unfold viewportUntouched; cbn [snd]; split; [reflexivity|].
  all: let Hin := fresh in intros Hin; solve [absent Hin].
Qed.

(** X15.  In a screenshot run without [--viewport] (or with an empty one)
    the viewport is left to the engine: [setViewport] is never called and
    the usage message is never written. *)
Theorem X15_no_viewport_option_no_viewport_call (libs : UrlLibs)
    (eng : Engine) (argv : ScreenshotArgv) :
  truthy_opt (s_viewport argv) = false ->
  viewportUntouched (runScreenshot libs eng argv).
Proof. apply screenshot_viewport_untouched. Qed.

Lemma X15_no_viewport_option_no_viewport_call_witness :
  viewportUntouched
    (runScreenshot Sample.libs Sample.engine
       (Sample.screenshotArgv "index.html" None CookieAbsent None)).
Proof.
  apply (X15_no_viewport_option_no_viewport_call Sample.libs Sample.engine).
  reflexivity.
Defined.

(** ** Diagnostics and render options *)

Ltac diagnostics_cases :=
  unfold diagnosticsIfDone; cbn [fst snd stderrLines flat_map app];
  let H := fresh in
  intros H; first [discriminate H | reflexivity].

Lemma print_diagnostics (libs : UrlLibs) (eng : Engine) (argv : PrintArgv) :
  diagnosticsIfDone
    (cookieLine (p_cookie argv)
     ++ [ (("Loading " ++ loadedAddress (resolveTarget libs (p_url argv)))%string,
           None);
          (("Writing " ++ or_else (p_output argv) "STDOUT")%string, None);
          ("Done", None) ])%list
    (runPrint libs eng argv).
Proof. unfold cookieLine. run_print; diagnostics_cases. Qed.

Lemma screenshot_diagnostics (libs : UrlLibs) (eng : Engine)
    (argv : ScreenshotArgv) :
  diagnosticsIfDone
    (viewportLine (s_viewport argv)
     ++ cookieLine (s_cookie argv)
     ++ [ (("Loading " ++ loadedAddress (resolveTarget libs (s_url argv)))%string,
           None);
          (("Writing " ++ or_else (s_output argv) "STDOUT")%string, None);
          ("Done", None) ])%list
    (runScreenshot libs eng argv).
Proof.
  unfold cookieLine, viewportLine. run_screenshot; diagnostics_cases.
Qed.

(** X16.  A run that returns has written to the diagnostic stream exactly
    these lines, in this order and with nothing attached: for [screenshot],
    [Setting viewport to <width>x<height>] with the two digit groups as
    typed when a non-empty [--viewport] matched; [Setting cookies] when the
    [cookie] option is truthy; [Loading] followed by the resolved address;
    [Writing] followed by the output path, or by [STDOUT] when there is
    none; [Done]. *)
Theorem X16_diagnostics_of_a_successful_run (libs : UrlLibs) (eng : Engine) :
  (forall argv : PrintArgv,
      fst (runPrint libs eng argv) = Returned tt ->
      stderrLines (snd (runPrint libs eng argv))
      = (cookieLine (p_cookie argv)
         ++ [ (("Loading " ++ loadedAddress (resolveTarget libs (p_url argv)))%string,
           None);
              (("Writing " ++ or_else (p_output argv) "STDOUT")%string, None);
              ("Done", None) ])%list)
  /\ (forall argv : ScreenshotArgv,
         fst (runScreenshot libs eng argv) = Returned tt ->
         stderrLines (snd (runScreenshot libs eng argv))
         = (viewportLine (s_viewport argv)
            ++ cookieLine (s_cookie argv)
            ++ [ (("Loading " ++ loadedAddress (resolveTarget libs (s_url argv)))%string,
           None);
                 (("Writing " ++ or_else (s_output argv) "STDOUT")%string, None);
                 ("Done", None) ])%list).
Proof.
  split; intros argv.
  - apply (print_diagnostics libs eng argv).
  - apply (screenshot_diagnostics libs eng argv).
Qed.

Lemma X16_diagnostics_of_a_successful_run_witness :
  stderrLines
    (snd (runPrint Sample.libs Sample.engine
            (Sample.printArgv "index.html" (Some "out.pdf")
               (CookieMany ["a:b"; "c:d"]) (Str "Letter") "")))
  = [ ("Setting cookies", None);
      ("Loading file:///work/index.html", None);
      ("Writing out.pdf", None);
      ("Done", None) ]
  /\ stderrLines
       (snd (runScreenshot Sample.libs Sample.engine
               (Sample.screenshotArgv "http://example.com/" None CookieAbsent
                  (Some "800X600"))))
     = [ ("Setting viewport to 800x600", None);
         ("Loading http://example.com/", None);
         ("Writing STDOUT", None);
         ("Done", None) ].
Proof.
  split.
  - apply (proj1 (X16_diagnostics_of_a_successful_run
                    Sample.libs Sample.engine)
             (Sample.printArgv "index.html" (Some "out.pdf")
                (CookieMany ["a:b"; "c:d"]) (Str "Letter") "")).
    reflexivity.
  - apply (proj2 (X16_diagnostics_of_a_successful_run
                    Sample.libs Sample.engine)
             (Sample.screenshotArgv "http://example.com/" None CookieAbsent
                (Some "800X600"))).
    reflexivity.
Defined.

Lemma print_render_options (libs : UrlLibs) (eng : Engine)
    (argv : PrintArgv) :
  Forall (pdfPassesThrough argv) (snd (runPrint libs eng argv)).
Proof.
  apply emits_run. unfold printHandler, print, applyCookies.
  emits_structure; simpl; auto.
  all: repeat split; reflexivity.
Qed.

Lemma screenshot_render_options (libs : UrlLibs) (eng : Engine)
    (argv : ScreenshotArgv) :
  Forall (shotPassesThrough argv) (snd (runScreenshot libs eng argv)).
Proof.
  apply emits_run. unfold screenshotHandler, screenshot, applyViewport,
    applyCookies.
  emits_structure; simpl; auto.
Qed.

(** X17.  The render call gets the options of the command line unchanged:
    for [print] the scale, the landscape flag, the background flag (as
    [printBackground]), the four margins, the header and footer flag and
    the two templates; for [screenshot] the full-page and omit-background
    flags; and for both, as [path], the output argument when it is a
    non-empty string and [null] otherwise. *)
Theorem X17_render_options_pass_through (libs : UrlLibs) (eng : Engine) :
  (forall argv : PrintArgv,
      Forall (pdfPassesThrough argv) (snd (runPrint libs eng argv)))
  /\ (forall argv : ScreenshotArgv,
         Forall (shotPassesThrough argv)
                (snd (runScreenshot libs eng argv))).
Proof.
  split; intros argv.
  - apply print_render_options.
  - apply screenshot_render_options.
Qed.

Lemma print_renders_after_navigation (libs : UrlLibs) (eng : Engine)
    (argv : PrintArgv) :
  rendersAfterNavigation (snd (runPrint libs eng argv)).
Proof. run_print; unfold rendersAfterNavigation; solve [ordered]. Qed.

Lemma screenshot_renders_after_navigation (libs : UrlLibs) (eng : Engine)
    (argv : ScreenshotArgv) :
  rendersAfterNavigation (snd (runScreenshot libs eng argv)).
Proof. run_screenshot; unfold rendersAfterNavigation; solve [ordered]. Qed.

(** X18.  In both commands the render call (PDF export or screenshot) is
    made only after a navigation has succeeded: a run whose navigation
    fails, or that never gets to navigate, renders nothing. *)
Theorem X18_render_only_after_successful_navigation (libs : UrlLibs)
    (eng : Engine) :
  (forall argv : PrintArgv,
      rendersAfterNavigation (snd (runPrint libs eng argv)))
  /\ (forall argv : ScreenshotArgv,
         rendersAfterNavigation (snd (runScreenshot libs eng argv))).
Proof.
  split; intros argv.
  - apply print_renders_after_navigation.
  - apply screenshot_renders_after_navigation.
Qed.
